(** * ESG Narrative Intelligence Layer: the report pipeline of [script.js]

    A shallow embedding of [script.js]: the profile store and its two
    auxiliary tables, the landing-page click handler and the report
    renderer [initGeneratePage], followed by the properties of the
    specification that concern them.

    Conventions of the embedding.
    - JavaScript strings are Rocq strings holding the UTF-8 bytes of the
      source text; concatenation and equality of strings agree with the
      JavaScript ones under that encoding.
    - A property read [o[k]] on an object literal consults the own
      properties of [o] first and then [Object.prototype].
    - The page is an explicit state (document title, elements by id,
      session storage, scheduled timers) threaded through a state and
      exception monad; a read or write through [null] raises a TypeError
      and leaves the page as it was at that point.
    - An element records what the program assigned to it (text, class,
      markup, listeners), not what a browser hands back on reading; the
      elements are kept by id and are taken not to lie inside one
      another, so an assignment touches the entry of its own id only. *)

From Stdlib Require Import ZArith String Ascii List Lia DecimalString.
From stdpp Require Import base option list strings gmap.

Open Scope string_scope.

(** ** JavaScript values and strings *)

Module Js.

(** The double quote and the line feed, which the templates of the
    source contain. *)
Definition dq : string := String (ascii_of_nat 34) EmptyString.
Definition nl : string := String (ascii_of_nat 10) EmptyString.

(** [xs.join('')] on an array of strings. *)
Definition join (xs : list string) : string :=
  fold_right String.append EmptyString xs.

(** [String.prototype.toLowerCase] on the ASCII range; bytes of
    multi-byte characters are left as they are. *)
Definition lowerChar (c : ascii) : ascii :=
  let n := nat_of_ascii c in
  if (65 <=? n)%nat && (n <=? 90)%nat then ascii_of_nat (n + 32) else c.

Fixpoint toLowerCase (s : string) : string :=
  match s with
  | EmptyString => EmptyString
  | String c s' => String (lowerChar c) (toLowerCase s')
  end.

(** [`${n}`] for an integer that a number represents exactly (at most
    2^53 in magnitude). *)
Definition numberToString (n : Z) : string :=
  NilZero.string_of_int (Z.to_int n).

(** The result of a property read [o[k]] on an object literal [o]. *)
Inductive Property (A : Type) : Type :=
| Own (a : A)      (* an own property of the literal *)
| Inherited        (* a member of Object.prototype: a function or object *)
| Undefined.       (* undefined *)
Arguments Own {A} a.
Arguments Inherited {A}.
Arguments Undefined {A}.

(** The property names of [Object.prototype]. *)
Definition objectPrototypeNames : list string :=
  [ "constructor"; "__defineGetter__"; "__defineSetter__"; "hasOwnProperty";
    "__lookupGetter__"; "__lookupSetter__"; "isPrototypeOf";
    "propertyIsEnumerable"; "toString"; "valueOf"; "__proto__";
    "toLocaleString" ].

Definition inPrototype (k : string) : bool :=
  existsb (String.eqb k) objectPrototypeNames.

(** [o[k]]. *)
Definition get {A : Type} (o : gmap string A) (k : string) : Property A :=
  match o !! k with
  | Some a => Own a
  | None => if inPrototype k then Inherited else Undefined
  end.

(** Truthiness of [o[k]]: objects and functions are truthy. *)
Definition truthy {A : Type} (v : Property A) : bool :=
  match v with
  | Undefined => false
  | _ => true
  end.

(** [v.f] for a value [v] that is not [undefined]: a field of an own
    entry, [undefined] on a member of [Object.prototype] (none of them
    carries a property of the names read by this program). *)
Definition field {A B : Type} (f : A -> B) (v : Property A) : option B :=
  match v with
  | Own a => Some (f a)
  | _ => None
  end.

(** [`${x}`] for a string or [undefined]. *)
Definition interp (x : option string) : string :=
  match x with
  | Some s => s
  | None => "undefined"
  end.

(** [a || b] on the result of [Storage.getItem]: [null] and the empty
    string are falsy. *)
Definition orElse (a : option string) (b : string) : string :=
  match a with
  | Some s => if String.eqb s EmptyString then b else s
  | None => b
  end.

End Js.

(** ** Data model *)

(** One metric record of [keyMetrics]. *)
Module Metric.
Record t : Type := mk {
  pillar : string;
  value : string;
  unit : string;
  label : string;
  change : string;
  dir : string
}.
End Metric.

(** One entry of [DATA_PROFILES]. *)
Module Profile.
Record t : Type := mk {
  topic : string;
  icon : string;
  colorClass : string;
  frameworks : list string;
  keyMetrics : list Metric.t;
  pullQuote : string;
  paragraphs : list string;
  integrity : Z;
  audience : string
}.
End Profile.

(** One entry of [titles]. *)
Module Heading.
Record t : Type := mk { title : string; subtitle : string }.
End Heading.

(** One row of an entry of [trends]. *)
Module Trend.
Record t : Type := mk { name : string; score : string }.
End Trend.

(** ** The profile store and the two auxiliary tables *)

Section Tables.
Import Js.

Definition climate : Profile.t :=
  {| Profile.topic := "Climate & Emissions";
     Profile.icon := "🌍";
     Profile.colorClass := "climate";
     Profile.frameworks := ["GRI 305"; "TCFD"; "ISSB IFRS S2"; "CSRD/ESRS E1"; "SBTi"];
     Profile.keyMetrics :=
      [{| Metric.pillar := "E"; Metric.value := "18,450"; Metric.unit := " tCO₂e"; Metric.label := "Total Scope 1 Emissions";
          Metric.change := "−11.2%"; Metric.dir := "down" |};
       {| Metric.pillar := "E"; Metric.value := "72,100"; Metric.unit := " tCO₂e"; Metric.label := "Scope 2 (market-based)";
          Metric.change := "−14.8%"; Metric.dir := "down" |};
       {| Metric.pillar := "E"; Metric.value := "1.5°C"; Metric.unit := EmptyString; Metric.label := "SBTi Pathway Alignment";
          Metric.change := "Confirmed"; Metric.dir := "flat" |};
       {| Metric.pillar := "G"; Metric.value := "96%"; Metric.unit := EmptyString; Metric.label := "Data Assurance Level";
          Metric.change := "3rd-party verified"; Metric.dir := "flat" |};
       {| Metric.pillar := "E"; Metric.value := "2038"; Metric.unit := EmptyString; Metric.label := "Net-Zero Target Year";
          Metric.change := "2yrs ahead of plan"; Metric.dir := "up" |};
       {| Metric.pillar := "S"; Metric.value := "€47M"; Metric.unit := EmptyString; Metric.label := "Green CapEx FY2024";
          Metric.change := "↑ 9.1% of total"; Metric.dir := "up" |}];
     Profile.pullQuote := "Science-based targets without data-backed performance are promises, not progress. This quarter, the numbers and the narrative finally align.";
     Profile.paragraphs :=
      ["Aggregate Scope 1 and Scope 2 greenhouse gas emissions fell to <strong>90,550 tCO₂e</strong> in FY2024 — a <span class=" +:+ dq +:+ "highlight-e" +:+ dq +:+ ">combined reduction of 13.4%</span> versus the prior year, and the steepest annual decline recorded in the company's emissions history. Scope 1 direct combustion emissions reached <strong>18,450 tCO₂e</strong>, driven by the retirement of two legacy gas-fired backup generators and the electrification of on-site fleet vehicles across four manufacturing campuses. Market-based Scope 2 emissions declined to <strong>72,100 tCO₂e</strong>, reflecting active procurement of Guarantees of Origin (GOs) from wind and solar installations meeting the RE100 additionality criteria.";
       "These outcomes place the organisation on a <span class=" +:+ dq +:+ "highlight-e" +:+ dq +:+ ">1.5°C-compatible trajectory</span> as validated by the Science Based Targets initiative (SBTi) — a commitment independently assessed against the absolute contraction method. Under TCFD's transition risk framework, the company's exposure to the EU Emissions Trading System, now pricing above <strong>€65 per tonne CO₂</strong>, has been meaningfully reduced. Avoided carbon cost in FY2024 is estimated at <strong>€5.9 million</strong> — a figure that amplifies the financial materiality of continued decarbonisation investment.";
       "Capital allocation to low-carbon infrastructure reached <strong>€47.2 million</strong> — representing 9.1% of total CapEx — spanning rooftop photovoltaic installations, building management system upgrades, and fleet electrification. As required under Article 8 of the EU Taxonomy Regulation, 61% of this expenditure qualifies as Taxonomy-aligned under the " +:+ dq +:+ "climate change mitigation" +:+ dq +:+ " environmental objective. The remaining 39% is under Taxonomy review pending updated delegated acts.";
       "Forward guidance: At current trajectory, Scope 1 and 2 net-zero is projected by <strong>2038</strong>, two years ahead of the 2040 commitment. Scope 3 emissions across the upstream value chain remain the primary outstanding data gap; a supplier engagement programme targeting 80% Scope 3 coverage by FY2026 was launched in Q3. Management affirms that no material gap exists between stated climate ambition and operational performance as at the reporting date."];
     Profile.integrity := 98;
     Profile.audience := "CSRD Filing · Investor Disclosure" |}.

Definition energy : Profile.t :=
  {| Profile.topic := "Energy & Efficiency";
     Profile.icon := "⚡";
     Profile.colorClass := "energy";
     Profile.frameworks := ["GRI 302"; "ISO 50001"; "EU Taxonomy"; "CDP Energy"; "RE100"];
     Profile.keyMetrics :=
      [{| Metric.pillar := "E"; Metric.value := "2,140"; Metric.unit := " GWh"; Metric.label := "Total Energy Consumed";
          Metric.change := "−6.3% YoY"; Metric.dir := "down" |};
       {| Metric.pillar := "E"; Metric.value := "42%"; Metric.unit := EmptyString; Metric.label := "Renewable Energy Mix";
          Metric.change := "↑ +7 pp YoY"; Metric.dir := "up" |};
       {| Metric.pillar := "E"; Metric.value := "€4.2M"; Metric.unit := EmptyString; Metric.label := "Energy Cost Avoided";
          Metric.change := "vs 2022 baseline"; Metric.dir := "up" |};
       {| Metric.pillar := "G"; Metric.value := "847"; Metric.unit := EmptyString; Metric.label := "Active IoT Sensors";
          Metric.change := "15-sec refresh"; Metric.dir := "flat" |};
       {| Metric.pillar := "E"; Metric.value := "1.8"; Metric.unit := " tCO₂e"; Metric.label := "Carbon Intensity /MWh";
          Metric.change := "−12% vs prior year"; Metric.dir := "down" |};
       {| Metric.pillar := "S"; Metric.value := "620"; Metric.unit := EmptyString; Metric.label := "Staff Energy Trained";
          Metric.change := "↑ 34% YoY"; Metric.dir := "up" |}];
     Profile.pullQuote := "Forty-two per cent renewable energy is not a ceiling — it is the floor from which the next phase of the energy transition begins.";
     Profile.paragraphs :=
      ["Total energy consumption across all operational boundaries reached <strong>2,140 GWh</strong> in FY2024 — a <span class=" +:+ dq +:+ "highlight-e" +:+ dq +:+ ">6.3% reduction year-over-year</span>, achieved through a combination of ISO 50001-aligned energy management practices, real-time load optimisation via <strong>847 IoT monitoring nodes</strong>, and the elimination of energy-intensive legacy processes across three production lines. The carbon intensity of energy consumed declined to a record-low <strong>1.8 tCO₂e per MWh</strong>, outperforming the sector benchmark of 2.4 tCO₂e/MWh reported by the IEA for comparable manufacturing activities.";
       "Renewable energy now accounts for <span class=" +:+ dq +:+ "highlight-e" +:+ dq +:+ ">42% of total electricity consumption</span> — up from 35% in FY2023 — representing the single largest year-on-year improvement in the company's renewable portfolio since the RE100 commitment was made in 2021. This was achieved through onsite solar photovoltaic expansion (net addition: 38 MWp), two new Power Purchase Agreements with independently certified wind farms in Northern Europe, and the commissioning of a 12 MWh battery energy storage system enabling renewable dispatch into peak demand windows.";
       "The financial dimension of energy efficiency is equally material: avoided energy costs in FY2024 reached <strong>€4.2 million</strong> against the 2022 baseline, as efficiency measures reduced total consumption that would otherwise have occurred under business-as-usual assumptions. Energy intensity per unit of production declined by <span class=" +:+ dq +:+ "highlight-e" +:+ dq +:+ ">8.9%</span>, advancing the company's trajectory toward its 2030 target of a 40% reduction in energy intensity. Sub-metering at process level, enabled by the IoT sensor network, has provided granular attribution of savings by facility and shift pattern.";
       "Looking ahead, the energy roadmap to 2030 targets <span class=" +:+ dq +:+ "highlight-e" +:+ dq +:+ ">65% renewable energy penetration</span>, supported by a committed pipeline of 110 MWp of additional onsite generation and a third PPA under negotiation. The workforce dimension of this transition is equally prioritised: <strong>620 employees</strong> received structured energy efficiency training in FY2024, embedding operational ownership of consumption reduction across the organisation. All energy data in this disclosure is assured to a limited assurance level by an accredited third party under ISAE 3000 standards."];
     Profile.integrity := 97;
     Profile.audience := "Sustainability Report · CDP Submission" |}.

Definition operations : Profile.t :=
  {| Profile.topic := "Operations & IoT ESG";
     Profile.icon := "🏭";
     Profile.colorClass := "operations";
     Profile.frameworks := ["GRI 303"; "GRI 306"; "SASB"; "UN SDG 9"; "UN SDG 12"];
     Profile.keyMetrics :=
      [{| Metric.pillar := "E"; Metric.value := "94%"; Metric.unit := EmptyString; Metric.label := "Waste Diversion Rate";
          Metric.change := "↑ +3pp YoY"; Metric.dir := "up" |};
       {| Metric.pillar := "E"; Metric.value := "−6.2%"; Metric.unit := EmptyString; Metric.label := "Water Withdrawal YoY";
          Metric.change := "vs SBT water target"; Metric.dir := "down" |};
       {| Metric.pillar := "S"; Metric.value := "0.38"; Metric.unit := EmptyString; Metric.label := "TRIR (Safety Rate)";
          Metric.change := "−28% vs 2021"; Metric.dir := "down" |};
       {| Metric.pillar := "G"; Metric.value := "99.1%"; Metric.unit := EmptyString; Metric.label := "Uptime Across Sites";
          Metric.change := "12 operating sites"; Metric.dir := "flat" |};
       {| Metric.pillar := "E"; Metric.value := "78%"; Metric.unit := EmptyString; Metric.label := "Circular Material Input";
          Metric.change := "↑ from 71% (FY23)"; Metric.dir := "up" |};
       {| Metric.pillar := "S"; Metric.value := "12"; Metric.unit := EmptyString; Metric.label := "Sites Monitored Live";
          Metric.change := "Real-time IoT"; Metric.dir := "flat" |}];
     Profile.pullQuote := "When machines communicate ESG data in real time, sustainability stops being a reporting exercise and becomes an operational discipline.";
     Profile.paragraphs :=
      ["Across <strong>12 manufacturing and logistics sites</strong>, operational performance in FY2024 reflects the deepening integration of IoT sensor infrastructure into ESG management. Real-time monitoring, with a 15-second data refresh cycle across process points and utilities, has enabled continuous rather than periodic ESG tracking — closing the gap between operational reality and disclosed performance. The total recordable incident rate (TRIR) fell to <span class=" +:+ dq +:+ "highlight-s" +:+ dq +:+ ">0.38 per 200,000 hours worked</span>, a 28% reduction since 2021, attributable to predictive maintenance alerts, automated hazard detection, and a strengthened behavioural safety culture embedded through workforce training.";
       "Water stewardship remains a material topic given the geographic distribution of sites in water-stressed regions. Total water withdrawal declined by <span class=" +:+ dq +:+ "highlight-e" +:+ dq +:+ ">6.2%</span> year-over-year to 1.84 million cubic metres — a result directly enabled by IoT-linked flow sensors triggering automated conservation protocols when consumption approaches site-level budgets. This trajectory aligns with the Science Based Targets Network (SBTN) water framework, targeting a 15% reduction in absolute withdrawal by 2030 from a 2020 baseline. Water recycled and reused within facility boundaries reached <strong>31% of total water processed</strong>, up from 26% in FY2023.";
       "Circular economy performance advanced substantially. The overall waste diversion rate reached <span class=" +:+ dq +:+ "highlight-e" +:+ dq +:+ ">94%</span> — meaning less than 6% of generated waste was directed to landfill. Circular material inputs, incorporating recycled feedstocks and bio-based materials, now account for <span class=" +:+ dq +:+ "highlight-e" +:+ dq +:+ ">78% of total material input by mass</span>, up from 71% the prior year, advancing alignment with EU Green Deal supply chain standards. Hazardous waste generation declined by 14%, reflecting material substitution decisions guided by lifecycle assessment data embedded in procurement workflows.";
       "The broader value of IoT-enabled operations lies in the quality of ESG data it produces: <span class=" +:+ dq +:+ "highlight-g" +:+ dq +:+ ">99.1% operational uptime</span> across all monitored sites ensured continuous data capture, reducing the estimation methodologies previously required to bridge sensor gaps. This data completeness directly supports the disclosure integrity requirements of CSRD, ISSB, and SASB frameworks, where material omissions and significant estimation uncertainty are flagged as disclosure risks. Management confirms that no material ESG data was estimated or extrapolated in this period's operational reporting."];
     Profile.integrity := 96;
     Profile.audience := "Board ESG Report · SASB Industry Filing" |}.

Definition DATA_PROFILES : gmap string Profile.t :=
  list_to_map
    [ ("climate", climate); ("energy", energy); ("operations", operations) ].

(** The table [titles] of [initGeneratePage]. *)
Definition climate_heading : Heading.t :=
  {| Heading.title := "Climate Performance & Decarbonisation Progress: FY2024 Strategic Disclosure";
     Heading.subtitle := "Science-based analysis of greenhouse gas trajectories, net-zero alignment, and carbon-related financial exposure across the enterprise value chain." |}.

Definition energy_heading : Heading.t :=
  {| Heading.title := "Energy Transition Intelligence: Renewable Integration & Efficiency Performance FY2024";
     Heading.subtitle := "IoT-informed assessment of energy consumption, renewable portfolio expansion, and intensity reduction against 2030 efficiency targets." |}.

Definition operations_heading : Heading.t :=
  {| Heading.title := "Operational ESG Intelligence: IoT-Enabled Sustainability Performance FY2024";
     Heading.subtitle := "Real-time sensor data synthesis across water stewardship, circular economy, workforce safety, and operational integrity metrics." |}.

Definition titles : gmap string Heading.t :=
  list_to_map
    [ ("climate", climate_heading); ("energy", energy_heading);
      ("operations", operations_heading) ].

(** The table [trends] of [initGeneratePage]. *)
Definition climate_trends : list Trend.t :=
  [{| Trend.name := "CBAM & Carbon Pricing"; Trend.score := "97" |};
   {| Trend.name := "Net-Zero Corporate Commitments"; Trend.score := "94" |};
   {| Trend.name := "ISSB S2 Global Adoption"; Trend.score := "88" |};
   {| Trend.name := "Scope 3 Value Chain Pressure"; Trend.score := "83" |}].

Definition energy_trends : list Trend.t :=
  [{| Trend.name := "RE100 Corporate Renewables"; Trend.score := "91" |};
   {| Trend.name := "Energy Efficiency Mandates"; Trend.score := "86" |};
   {| Trend.name := "Grid Flexibility & Storage"; Trend.score := "79" |};
   {| Trend.name := "Green Power Procurement"; Trend.score := "74" |}].

Definition operations_trends : list Trend.t :=
  [{| Trend.name := "Circular Economy Regulation"; Trend.score := "88" |};
   {| Trend.name := "Water Stewardship (SBTN)"; Trend.score := "82" |};
   {| Trend.name := "IoT & ESG Data Quality"; Trend.score := "78" |};
   {| Trend.name := "UN SDG 12 Supply Chains"; Trend.score := "73" |}].

Definition trends : gmap string (list Trend.t) :=
  list_to_map
    [ ("climate", climate_trends); ("energy", energy_trends);
      ("operations", operations_trends) ].

End Tables.

(** ** The page: document, session storage and timers *)

Module Page.

(** What a scheduled callback or an event listener of this program does. *)
Inductive Callback : Type :=
| Navigate (url : string)              (* window.location.href = url *)
| SetStyleWidth (id width : string)    (* element.style.width = width *)
| PrintPage                            (* window.print() *)
| SetTimeout (cb : Callback) (ms : nat).  (* setTimeout(cb, ms) *)

Inductive Timer : Type :=
| AfterDelay (cb : Callback) (ms : nat)  (* registered by setTimeout *)
| AnimationFrame (cb : Callback).      (* registered by requestAnimationFrame *)

(** What the program has assigned to an element: the strings last
    assigned to its [textContent], [className] and [innerHTML], and the
    click listeners added to it.  No element is written through both
    [textContent] and [innerHTML].  The fields are the values as they
    were assigned, not what a browser hands back on reading them (a read
    of [innerHTML] serialises the parsed markup anew).  The elements are
    kept by id and are taken not to lie inside one another: an assignment
    changes the entry of its own id and no other. *)
Record Element : Type := mkElement {
  textContent : string;
  className : string;
  innerHTML : string;
  clickListeners : list Callback
}.

Record t : Type := mk {
  title : string;                      (* document.title *)
  elements : gmap string Element;      (* the elements that carry an id *)
  sessionStorage : gmap string string;
  timers : list Timer;
  today : string                       (* the date getReportDate formats *)
}.

Inductive Error : Type := TypeError.

(** How a function of the program ends: it returns, or it throws and
    leaves the page as it was when the exception was raised. *)
Inductive Outcome (A : Type) : Type :=
| Returns (a : A) (p : t)
| Throws (e : Error) (p : t).
Arguments Returns {A} a p.
Arguments Throws {A} e p.

Definition M (A : Type) : Type := t -> Outcome A.

Definition ret {A : Type} (a : A) : M A := fun p => Returns a p.

Definition bind {A B : Type} (m : M A) (k : A -> M B) : M B :=
  fun p =>
    match m p with
    | Returns a p' => k a p'
    | Throws e p' => Throws e p'
    end.

Definition throw {A : Type} (e : Error) : M A := fun p => Throws e p.

Definition page_of {A : Type} (o : Outcome A) : t :=
  match o with
  | Returns _ p => p
  | Throws _ p => p
  end.

Definition returned {A : Type} (o : Outcome A) : bool :=
  match o with
  | Returns _ _ => true
  | Throws _ _ => false
  end.

(** The outcome with [f] applied to its page. *)
Definition onPage {A : Type} (f : t -> t) (o : Outcome A) : Outcome A :=
  match o with
  | Returns a p => Returns a (f p)
  | Throws e p => Throws e (f p)
  end.

(** The element [id] exists in the document. *)
Definition present (id : string) (p : t) : bool :=
  match elements p !! id with
  | Some _ => true
  | None => false
  end.

(** The page after the element [id], if there is one, became [f] of
    itself; the entries of the other ids are as they were. *)
Definition update (id : string) (f : Element -> Element) (p : t) : t :=
  {| title := title p;
     elements := alter f id (elements p);
     sessionStorage := sessionStorage p;
     timers := timers p;
     today := today p |}.

(** The strings last assigned to [el.textContent], [el.className] and
    [el.innerHTML] of the element [id], if there is one. *)
Definition textOf (id : string) (p : t) : option string :=
  textContent <$> (elements p !! id).

Definition classOf (id : string) (p : t) : option string :=
  className <$> (elements p !! id).

Definition htmlOf (id : string) (p : t) : option string :=
  innerHTML <$> (elements p !! id).

(** The page after [document.title = v]. *)
Definition retitle (v : string) (p : t) : t :=
  {| title := v;
     elements := elements p;
     sessionStorage := sessionStorage p;
     timers := timers p;
     today := today p |}.

(** The page after a timer was registered. *)
Definition addTimer (tm : Timer) (p : t) : t :=
  {| title := title p;
     elements := elements p;
     sessionStorage := sessionStorage p;
     timers := timers p ++ [tm];
     today := today p |}.

(** The page with the session storage [s]. *)
Definition withStorage (s : gmap string string) (p : t) : t :=
  {| title := title p;
     elements := elements p;
     sessionStorage := s;
     timers := timers p;
     today := today p |}.

(** [m] leaves the observation [f] of the page as it finds it, whether
    it returns or throws. *)
Definition preserves {A B : Type} (f : t -> B) (m : M A) : Prop :=
  forall p, f (page_of (m p)) = f p.

(** [m] neither reads nor writes the session storage: it runs the same
    under any storage and hands the storage on. *)
Definition storage_blind {A : Type} (m : M A) : Prop :=
  forall s p, m (withStorage s p) = onPage (withStorage s) (m p).

End Page.

Declare Scope js_scope.
Delimit Scope js_scope with js.
Notation "x <- m ;; k" := (Page.bind m (fun x => k))
  (at level 100, m at next level, right associativity) : js_scope.
Notation "m ;; k" := (Page.bind m (fun _ => k))
  (at level 100, right associativity) : js_scope.

Module Dom.
Import Page.
Local Open Scope js_scope.

(** A reference to an element is its id; [None] is [null]. *)
Definition Ref : Type := option string.

(** [document.getElementById(id)]. *)
Definition getElementById (id : string) : M Ref :=
  fun p =>
    match elements p !! id with
    | Some _ => Returns (Some id) p
    | None => Returns None p
    end.

(** [if (ref) body]. *)
Definition when (ref : Ref) (body : M unit) : M unit :=
  match ref with
  | Some _ => body
  | None => ret tt
  end.

(** A write [ref.attribute = v]; through [null] it is a TypeError. *)
Definition assign (ref : Ref) (f : Element -> Element) : M unit :=
  match ref with
  | Some id => fun p => Returns tt (update id f p)
  | None => throw TypeError
  end.

(** The element after [e.textContent = v]; assigning [undefined] clears
    the text. *)
Definition withText (v : option string) (e : Element) : Element :=
  {| textContent := default EmptyString v;
     className := className e;
     innerHTML := innerHTML e;
     clickListeners := clickListeners e |}.

(** The element after [e.className = v]. *)
Definition withClass (v : string) (e : Element) : Element :=
  {| textContent := textContent e;
     className := v;
     innerHTML := innerHTML e;
     clickListeners := clickListeners e |}.

(** The element after [e.innerHTML = v]. *)
Definition withHtml (v : string) (e : Element) : Element :=
  {| textContent := textContent e;
     className := className e;
     innerHTML := v;
     clickListeners := clickListeners e |}.

(** The element after [e.addEventListener('click', cb)]. *)
Definition withListener (cb : Callback) (e : Element) : Element :=
  {| textContent := textContent e;
     className := className e;
     innerHTML := innerHTML e;
     clickListeners := clickListeners e ++ [cb] |}.

Definition setTextContent (ref : Ref) (v : option string) : M unit :=
  assign ref (withText v).

Definition setClassName (ref : Ref) (v : string) : M unit :=
  assign ref (withClass v).

Definition setInnerHTML (ref : Ref) (v : string) : M unit :=
  assign ref (withHtml v).

Definition addClickListener (ref : Ref) (cb : Callback) : M unit :=
  assign ref (withListener cb).

(** [document.title = v]. *)
Definition setTitle (v : string) : M unit :=
  fun p => Returns tt (retitle v p).

(** [sessionStorage.getItem(key)]; [None] is [null]. *)
Definition getItem (key : string) : M (option string) :=
  fun p => Returns (sessionStorage p !! key) p.

(** [sessionStorage.setItem(key, v)]. *)
Definition setItem (key v : string) : M unit :=
  fun p => Returns tt (withStorage (<[key := v]> (sessionStorage p)) p).

(** [setTimeout] and [requestAnimationFrame]: the callback is queued. *)
Definition schedule (tm : Timer) : M unit :=
  fun p => Returns tt (addTimer tm p).

(** A method call on a value that may be [undefined]. *)
Definition defined {A : Type} (x : option A) : M A :=
  match x with
  | Some a => ret a
  | None => throw TypeError
  end.

(** The tokens of a class attribute, split at ASCII white space. *)
Definition isSpace (c : ascii) : bool :=
  let n := nat_of_ascii c in
  (n =? 32)%nat || (n =? 9)%nat || (n =? 10)%nat || (n =? 12)%nat
  || (n =? 13)%nat.

Fixpoint tokensFrom (cur : string) (s : string) : list string :=
  let flush := if String.eqb cur EmptyString then [] else [cur] in
  match s with
  | EmptyString => flush
  | String c s' =>
      if isSpace c then flush ++ tokensFrom EmptyString s'
      else tokensFrom (cur +:+ String c EmptyString) s'
  end.

Definition tokens (s : string) : list string := tokensFrom EmptyString s.

Fixpoint dedup (seen : list string) (xs : list string) : list string :=
  match xs with
  | [] => []
  | x :: xs' =>
      if existsb (String.eqb x) seen then dedup seen xs'
      else x :: dedup (x :: seen) xs'
  end.

Fixpoint unwords (xs : list string) : string :=
  match xs with
  | [] => EmptyString
  | [x] => x
  | x :: xs' => x +:+ " " +:+ unwords xs'
  end.

(** [ref.classList.add(tok)]: the class attribute becomes the ordered set
    of its tokens with [tok] added. *)
Definition classListAdd (ref : Ref) (tok : string) : M unit :=
  assign ref (fun e =>
    withClass (unwords (dedup [] (tokens (className e) ++ [tok]))) e).

End Dom.

(** ** Markup generation *)

(** One entry of [fwStatus]. *)
Module FwStatus.
Record t : Type := mk { name : string; status : string; label : string }.
End FwStatus.

Module Render.
Import Js.

(** [m.pillar === 'E' ? 'Environmental' : m.pillar === 'S' ? 'Social' : 'Governance'] *)
Definition pillarWord (pillar : string) : string :=
  if String.eqb pillar "E" then "Environmental"
  else if String.eqb pillar "S" then "Social"
  else "Governance".

(** [m.dir === 'up' ? '▲' : m.dir === 'down' ? '▼' : '—'] *)
Definition dirGlyph (dir : string) : string :=
  if String.eqb dir "up" then "▲"
  else if String.eqb dir "down" then "▼"
  else "—".

(** The card of one metric (4f). *)
Definition cardHtml (m : Metric.t) : string :=
  nl +:+ "      <div class=" +:+ dq +:+ "esg-data-card "
  +:+ toLowerCase (Metric.pillar m)
  +:+ dq +:+ ">" +:+ nl +:+ "        <div class=" +:+ dq +:+ "dc-pillar" +:+ dq +:+ ">● "
  +:+ pillarWord (Metric.pillar m)
  +:+ "</div>" +:+ nl +:+ "        <div class=" +:+ dq +:+ "dc-value" +:+ dq +:+ ">"
  +:+ Metric.value m
  +:+ "<span style=" +:+ dq +:+ "font-size:14px;font-family:'Source Serif 4',serif;font-weight:300;" +:+ dq +:+ ">"
  +:+ Metric.unit m
  +:+ "</span></div>" +:+ nl +:+ "        <div class=" +:+ dq +:+ "dc-label" +:+ dq +:+ ">"
  +:+ Metric.label m
  +:+ "</div>" +:+ nl +:+ "        <div class=" +:+ dq +:+ "dc-change "
  +:+ Metric.dir m
  +:+ dq +:+ ">"
  +:+ dirGlyph (Metric.dir m)
  +:+ " "
  +:+ Metric.change m
  +:+ "</div>" +:+ nl +:+ "      </div>" +:+ nl +:+ "    ".

(** [data.keyMetrics.map(m => ...)]: the cards, one per metric. *)
Definition dataCards (keyMetrics : list Metric.t) : list string :=
  map cardHtml keyMetrics.

(** The markup of the metrics grid. *)
Definition dataCardsHtml (keyMetrics : list Metric.t) : string :=
  join (dataCards keyMetrics).

(** The block of one paragraph (4g). *)
Definition paraHtml (p : string) : string := "<p>" +:+ p +:+ "</p>".

(** The pull-quote block (4g). *)
Definition quoteHtml (colorClass pullQuote : string) : string :=
  nl +:+ "          <div class=" +:+ dq +:+ "pull-quote "
  +:+ colorClass
  +:+ dq +:+ ">" +:+ nl +:+ "            <p>" +:+ dq
  +:+ pullQuote
  +:+ dq +:+ "</p>" +:+ nl +:+ "          </div>" +:+ nl +:+ "        ".

(** [paras.forEach((p, i) => { html += ...; if (i === 1) html += ... })]
    from index [i] on, with [html] what has been accumulated so far. *)
Fixpoint narrativeLoop (colorClass pullQuote : string) (paras : list string)
    (i : nat) (html : string) : string :=
  match paras with
  | [] => html
  | p :: rest =>
      let html := html +:+ paraHtml p in
      let html :=
        if (i =? 1)%nat then html +:+ quoteHtml colorClass pullQuote
        else html in
      narrativeLoop colorClass pullQuote rest (S i) html
  end.

(** The markup of the narrative region. *)
Definition narrativeHtml (colorClass pullQuote : string)
    (paras : list string) : string :=
  narrativeLoop colorClass pullQuote paras 0 EmptyString.

(** The blocks of the narrative region: what each [html +=] of the loop
    appends, in the order of execution. *)
Inductive Block : Type :=
| Para (p : string)
| PullQuote (colorClass pullQuote : string).

Definition blockHtml (b : Block) : string :=
  match b with
  | Para p => paraHtml p
  | PullQuote c q => quoteHtml c q
  end.

Definition isPullQuote (b : Block) : bool :=
  match b with
  | PullQuote _ _ => true
  | Para _ => false
  end.

Fixpoint narrativeBlocksFrom (colorClass pullQuote : string)
    (paras : list string) (i : nat) : list Block :=
  match paras with
  | [] => []
  | p :: rest =>
      Para p
      :: (if (i =? 1)%nat then [PullQuote colorClass pullQuote] else [])
      ++ narrativeBlocksFrom colorClass pullQuote rest (S i)
  end.

Definition narrativeBlocks (colorClass pullQuote : string)
    (paras : list string) : list Block :=
  narrativeBlocksFrom colorClass pullQuote paras 0.

(** The markup of the framework tags (4h). *)
Definition fwTagHtml (f : string) : string :=
  "<span class=" +:+ dq +:+ "fw-tag" +:+ dq +:+ ">" +:+ f +:+ "</span>".

Definition frameworkTagsHtml (frameworks : list string) : string :=
  join (map fwTagHtml frameworks).

(** The integrity label and the width of the bar (4i). *)
Definition integrityLabelText (integrity : string) : string :=
  "Narrative Integrity: " +:+ integrity +:+ "%".

Definition integrityWidth (integrity : string) : string :=
  integrity +:+ "%".

(** One row of the trend sidebar (4k). *)
Definition trendHtml (tr : Trend.t) : string :=
  nl +:+ "      <div class=" +:+ dq +:+ "trend-row" +:+ dq +:+ ">" +:+ nl +:+ "        <span class=" +:+ dq +:+ "trend-name-small" +:+ dq +:+ ">"
  +:+ Trend.name tr
  +:+ "</span>" +:+ nl +:+ "        <span class=" +:+ dq +:+ "trend-score" +:+ dq +:+ ">"
  +:+ Trend.score tr
  +:+ "</span>" +:+ nl +:+ "      </div>" +:+ nl +:+ "    ".

Definition trendsHtml (rows : list Trend.t) : string :=
  join (map trendHtml rows).

(** [i < 3 ? 'ready' : i === 3 ? 'partial' : 'pending'] *)
Definition statusOf (i : nat) : string :=
  if (i <? 3)%nat then "ready"
  else if (i =? 3)%nat then "partial"
  else "pending".

(** [i < 3 ? '✓ Ready' : i === 3 ? '◑ Partial' : '○ Pending'] *)
Definition labelOf (i : nat) : string :=
  if (i <? 3)%nat then "✓ Ready"
  else if (i =? 3)%nat then "◑ Partial"
  else "○ Pending".

(** [data.frameworks.map((f, i) => ({ name, status, label }))] (4l). *)
Definition fwStatus (frameworks : list string) : list FwStatus.t :=
  imap (fun i f =>
          {| FwStatus.name := f;
             FwStatus.status := statusOf i;
             FwStatus.label := labelOf i |})
       frameworks.

Definition fwAlignRowHtml (f : FwStatus.t) : string :=
  nl +:+ "      <div class=" +:+ dq +:+ "fw-align-row" +:+ dq +:+ ">" +:+ nl +:+ "        <span class=" +:+ dq +:+ "fw-name" +:+ dq +:+ ">"
  +:+ FwStatus.name f
  +:+ "</span>" +:+ nl +:+ "        <span class=" +:+ dq +:+ "fw-status "
  +:+ FwStatus.status f
  +:+ dq +:+ ">"
  +:+ FwStatus.label f
  +:+ "</span>" +:+ nl +:+ "      </div>" +:+ nl +:+ "    ".

Definition fwAlignHtml (frameworks : list string) : string :=
  join (map fwAlignRowHtml (fwStatus frameworks)).

End Render.

(** ** The landing controller *)

Module Landing.
Import Js Page Dom.
Local Open Scope js_scope.

(** [initHomepage] registers two listeners on every theme card that
    carries a [data-topic] attribute; they are modelled by what they do
    when they fire. *)

(** The check [if (!DATA_PROFILES[topic]) return;] lets [topic] through. *)
Definition accepts (topic : string) : bool :=
  truthy (get DATA_PROFILES topic).

(** The click listener that [initHomepage] registers on a theme card
    whose [data-topic] attribute is [topic]. *)
Definition themeCardClick (topic : string) : M unit :=
  if negb (truthy (get DATA_PROFILES topic)) then ret tt
  else
    overlay <- getElementById "loadingOverlay" ;;
    when overlay (classListAdd overlay "visible") ;;
    setItem "esg_topic" topic ;;
    schedule (AfterDelay (Navigate "generate.html") 1100).

(** The keydown listener: Enter and Space click the card. *)
Definition themeCardKeydown (key topic : string) : M unit :=
  if String.eqb key "Enter" || String.eqb key " " then themeCardClick topic
  else ret tt.

End Landing.

(** ** The report renderer *)

Module Report.
Import Js Page Dom Render.
Local Open Scope js_scope.

(** [getReportDate()]: today's date in the report format. *)
Definition getReportDate : M string := fun p => Returns (today p) p.

(** The topic that [initGeneratePage] works with:
    [sessionStorage.getItem('esg_topic') || 'climate']. *)
Definition activeTopic (stored : option string) : string :=
  orElse stored "climate".

(** A property read [t.f] on the entry looked up in [titles]: a
    TypeError when the entry is [undefined]. *)
Definition member {A B : Type} (f : A -> B) (v : Property A) : M (option B) :=
  match v with
  | Undefined => throw TypeError
  | _ => ret (field f v)
  end.

(** The sections 4a to 4m of [initGeneratePage], in the order of the
    source.  [data] is [DATA_PROFILES[topic]], which is not [undefined]
    when they run. *)
Section Steps.
Variable data : Property Profile.t.

Let data_topic : string := interp (field Profile.topic data).
Let data_icon : string := interp (field Profile.icon data).
Let data_colorClass : string := interp (field Profile.colorClass data).
Let data_pullQuote : string := interp (field Profile.pullQuote data).
Let data_integrity : string :=
  interp (numberToString <$> field Profile.integrity data).

(** 4a. Update the title of the document. *)
Definition step4a : M unit :=
  setTitle (data_topic +:+ " — ESG Narrative Intelligence").

(** 4b. Topic badge in the top bar. *)
Definition step4b : M unit :=
  topicBadge <- getElementById "topicBadge" ;;
  when topicBadge
    (setTextContent topicBadge (Some (data_icon +:+ " " +:+ data_topic)) ;;
     setClassName topicBadge ("gen-topic-badge " +:+ data_colorClass)).

(** 4c. Report date. *)
Definition step4c (today : string) : M unit :=
  reportDate <- getElementById "reportDate" ;;
  when reportDate (setTextContent reportDate (Some today)).

(** 4d. Class of the report header. *)
Definition step4d : M unit :=
  reportHeader <- getElementById "reportHeader" ;;
  when reportHeader
    (setClassName reportHeader ("report-header " +:+ data_colorClass) ;;
     reportTypeTag <- getElementById "reportTypeTag" ;;
     setClassName reportTypeTag ("report-type-tag " +:+ data_colorClass) ;;
     reportTypeTag <- getElementById "reportTypeTag" ;;
     setTextContent reportTypeTag
       (Some (data_icon +:+ "  " +:+ data_topic +:+ " Narrative"))).

(** 4e. Report title and subtitle, from [t = titles[topic]]. *)
Definition step4e (t : Property Heading.t) : M unit :=
  reportTitle <- getElementById "reportTitle" ;;
  t_title <- member Heading.title t ;;
  setTextContent reportTitle t_title ;;
  reportSubtitle <- getElementById "reportSubtitle" ;;
  t_subtitle <- member Heading.subtitle t ;;
  setTextContent reportSubtitle t_subtitle.

(** 4f. ESG data cards. *)
Definition step4f : M unit :=
  dataGrid <- getElementById "dataCardsGrid" ;;
  when dataGrid
    (keyMetrics <- defined (field Profile.keyMetrics data) ;;
     setInnerHTML dataGrid (dataCardsHtml keyMetrics)).

(** 4g. Narrative paragraphs. *)
Definition step4g : M unit :=
  narrativeBody <- getElementById "narrativeBody" ;;
  when narrativeBody
    (paras <- defined (field Profile.paragraphs data) ;;
     setInnerHTML narrativeBody
       (narrativeHtml data_colorClass data_pullQuote paras)).

(** 4h. Framework tags. *)
Definition step4h : M unit :=
  fwContainer <- getElementById "frameworkTags" ;;
  when fwContainer
    (frameworks <- defined (field Profile.frameworks data) ;;
     setInnerHTML fwContainer (frameworkTagsHtml frameworks)).

(** 4i. Integrity bar: the label now, the width of the fill after the
    next paint and 300 ms. *)
Definition step4i : M unit :=
  integrityFill <- getElementById "integrityFill" ;;
  integrityLabel <- getElementById "integrityLabel" ;;
  when integrityFill
    (when integrityLabel
       (setTextContent integrityLabel
          (Some (integrityLabelText data_integrity)) ;;
        schedule
          (AnimationFrame
             (SetTimeout
                (SetStyleWidth "integrityFill" (integrityWidth data_integrity))
                300)))).

(** 4j. Audience line. *)
Definition step4j : M unit :=
  audience <- getElementById "audienceLabel" ;;
  when audience (setTextContent audience (field Profile.audience data)).

(** 4k. Trend scores of the sidebar, from [trends[topic]]. *)
Definition step4k (topicTrends : Property (list Trend.t)) : M unit :=
  trendContainer <- getElementById "trendContainer" ;;
  when trendContainer
    (rows <- defined (field (fun rows => rows) topicTrends) ;;
     setInnerHTML trendContainer (trendsHtml rows)).

(** 4l. Framework alignment of the sidebar. *)
Definition step4l : M unit :=
  fwAlignContainer <- getElementById "fwAlignContainer" ;;
  when fwAlignContainer
    (frameworks <- defined (field Profile.frameworks data) ;;
     setInnerHTML fwAlignContainer (fwAlignHtml frameworks)).

(** 4m. Print / export button. *)
Definition step4m : M unit :=
  exportBtn <- getElementById "exportBtn" ;;
  when exportBtn (addClickListener exportBtn PrintPage).

(** Everything after [if (!data) return;]. *)
Definition populate (t : Property Heading.t)
    (topicTrends : Property (list Trend.t)) : M unit :=
  today <- getReportDate ;;
  step4a ;; step4b ;; step4c today ;; step4d ;; step4e t ;; step4f ;;
  step4g ;; step4h ;; step4i ;; step4j ;; step4k topicTrends ;; step4l ;;
  step4m.

End Steps.

Definition initGeneratePage : M unit :=
  stored <- getItem "esg_topic" ;;
  let topic := activeTopic stored in
  let data := get DATA_PROFILES topic in
  if negb (truthy data) then ret tt
  else populate data (get titles topic) (get trends topic).

(** The regions that [initGeneratePage] reads without a guard of their
    own are there: [reportTypeTag] (4d, inside the guard of
    [reportHeader]), [reportTitle] and [reportSubtitle] (4e). *)
Definition header_ok (p : Page.t) : Prop :=
  present "reportHeader" p = true -> present "reportTypeTag" p = true.

Definition unguarded_ok (p : Page.t) : Prop :=
  header_ok p
  /\ present "reportTitle" p = true
  /\ present "reportSubtitle" p = true.

(** The page that [populate] leaves when it returns, for the entries
    [d], [h] and [rows] of the three tables: the updates of 4a to 4m in
    the order of the source. *)
Definition rendered (d : Profile.t) (h : Heading.t) (rows : list Trend.t)
    (p : Page.t) : Page.t :=
  let shown := numberToString (Profile.integrity d) in
  let p4a :=
    retitle (Profile.topic d +:+ " — ESG Narrative Intelligence") p in
  let p4b :=
    update "topicBadge"
      (withClass ("gen-topic-badge " +:+ Profile.colorClass d))
      (update "topicBadge"
         (withText (Some (Profile.icon d +:+ " " +:+ Profile.topic d)))
         p4a) in
  let p4c := update "reportDate" (withText (Some (today p))) p4b in
  let p4d :=
    if present "reportHeader" p then
      update "reportTypeTag"
        (withText (Some (Profile.icon d +:+ "  " +:+ Profile.topic d
                         +:+ " Narrative")))
        (update "reportTypeTag"
           (withClass ("report-type-tag " +:+ Profile.colorClass d))
           (update "reportHeader"
              (withClass ("report-header " +:+ Profile.colorClass d))
              p4c))
    else p4c in
  let p4e :=
    update "reportSubtitle" (withText (Some (Heading.subtitle h)))
      (update "reportTitle" (withText (Some (Heading.title h))) p4d) in
  let p4f :=
    update "dataCardsGrid"
      (withHtml (dataCardsHtml (Profile.keyMetrics d))) p4e in
  let p4g :=
    update "narrativeBody"
      (withHtml (narrativeHtml (Profile.colorClass d) (Profile.pullQuote d)
                   (Profile.paragraphs d)))
      p4f in
  let p4h :=
    update "frameworkTags"
      (withHtml (frameworkTagsHtml (Profile.frameworks d))) p4g in
  let p4i :=
    if present "integrityFill" p && present "integrityLabel" p then
      addTimer
        (AnimationFrame
           (SetTimeout
              (SetStyleWidth "integrityFill" (integrityWidth shown)) 300))
        (update "integrityLabel"
           (withText (Some (integrityLabelText shown))) p4h)
    else p4h in
  let p4j :=
    update "audienceLabel" (withText (Some (Profile.audience d))) p4i in
  let p4k := update "trendContainer" (withHtml (trendsHtml rows)) p4j in
  let p4l :=
    update "fwAlignContainer"
      (withHtml (fwAlignHtml (Profile.frameworks d))) p4k in
  update "exportBtn" (withListener PrintPage) p4l.

End Report.

(** ** Pages to run the controllers on *)

Module Fixture.
Import Page.

Definition blank : Element :=
  {| textContent := EmptyString;
     className := EmptyString;
     innerHTML := EmptyString;
     clickListeners := [] |}.

(** A page whose elements are blank and carry the ids [ids], with
    [stored] under the key [esg_topic] of the session storage. *)
Definition page (ids : list string) (stored : option string) : Page.t :=
  {| title := EmptyString;
     elements := list_to_map (map (fun id => (id, blank)) ids);
     sessionStorage :=
       match stored with
       | Some v => {[ "esg_topic" := v ]}
       | None => ∅
       end;
     timers := [];
     today := "3 November 2026" |}.

(** The ids that [initGeneratePage] looks up. *)
Definition reportIds : list string :=
  [ "topicBadge"; "reportDate"; "reportHeader"; "reportTypeTag";
    "reportTitle"; "reportSubtitle"; "dataCardsGrid"; "narrativeBody";
    "frameworkTags"; "integrityFill"; "integrityLabel"; "audienceLabel";
    "trendContainer"; "fwAlignContainer"; "exportBtn" ].

(** The report page without the region [id]. *)
Definition reportIdsWithout (id : string) : list string :=
  List.filter (fun i => negb (String.eqb i id)) reportIds.

(** A profile with a single narrative paragraph. *)
Definition oneParagraph : Profile.t :=
  {| Profile.topic := "Water";
     Profile.icon := "~";
     Profile.colorClass := "water";
     Profile.frameworks := ["GRI 303"];
     Profile.keyMetrics := [];
     Profile.pullQuote := "Every drop counts.";
     Profile.paragraphs := ["Withdrawal fell."];
     Profile.integrity := 90;
     Profile.audience := "Board" |}.

End Fixture.

(** ** The header clock *)

Module Clock.
Import Js Page Dom.

(** The UTC fields of the [Date] that [new Date()] reads off the system
    clock, each in the range that a [Date] gives it; the month counts
    from 1, as [toISOString] prints it. *)
Record Instant : Type := mk {
  year : Z;
  month : nat;
  day : nat;
  hours : nat;
  minutes : nat;
  seconds : nat;
  milliseconds : nat
}.

Definition digit (d : nat) : ascii := ascii_of_nat (48 + d).

(** The last [width] decimal digits of [n], with leading zeros. *)
Fixpoint padded (width n : nat) : string :=
  match width with
  | O => EmptyString
  | S w => padded w (n / 10) +:+ String (digit (n mod 10)) EmptyString
  end.

(** The year of the ISO format: four digits from 0 to 9999, a sign and
    six digits otherwise. *)
Definition isoYear (y : Z) : string :=
  if (0 <=? y)%Z && (y <=? 9999)%Z then padded 4 (Z.to_nat y)
  else (if (y <? 0)%Z then "-" else "+") +:+ padded 6 (Z.to_nat (Z.abs y)).

(** [Date.prototype.toISOString]. *)
Definition toISOString (t : Instant) : string :=
  isoYear (year t) +:+ "-" +:+ padded 2 (month t) +:+ "-"
  +:+ padded 2 (day t) +:+ "T" +:+ padded 2 (hours t) +:+ ":"
  +:+ padded 2 (minutes t) +:+ ":" +:+ padded 2 (seconds t) +:+ "."
  +:+ padded 3 (milliseconds t) +:+ "Z".

(** [s.replace(pattern, replacement)] for a pattern of one character:
    the first occurrence is replaced. *)
Fixpoint replace (pattern : ascii) (replacement : string) (s : string)
    : string :=
  match s with
  | EmptyString => EmptyString
  | String c s' =>
      if Ascii.eqb c pattern then replacement +:+ s'
      else String c (replace pattern replacement s')
  end.

(** [s.slice(b, e)] for [0 <= b <= e]. *)
Definition slice (b e : nat) (s : string) : string := substring b (e - b) s.

(** [now.toISOString().replace('T', ' ').slice(0, 19) + ' UTC'] *)
Definition clockText (now : Instant) : string :=
  slice 0 19 (replace "T"%char " " (toISOString now)) +:+ " UTC".

(** [tick], for the element [ts] and the clock reading [now]. *)
Definition tick (ts : Ref) (now : Instant) : M unit :=
  setTextContent ts (Some (clockText now)).

End Clock.

(** ** Registration of the landing listeners *)

Module Home.

(** A listener that [initHomepage] registers on a theme card; the card is
    named by its position among the elements that match
    [.theme-card[data-topic]].  When it fires on a card whose attribute is
    [topic], a click listener runs [Landing.themeCardClick topic] and a
    keydown listener [Landing.themeCardKeydown key topic]. *)
Inductive Listener : Type :=
| Click (card : nat)
| Keydown (card : nat).

(** [initHomepage], for the [data-topic] attributes [cards] of the theme
    cards: the listeners it registers, in the order of registration. *)
Definition initHomepage (cards : list string) : list Listener :=
  if (length cards =? 0)%nat then []
  else concat (imap (fun i _ => [Click i; Keydown i]) cards).

End Home.

(** ** The boot handler *)

Module Boot.
Import Js Page Dom.

Inductive Registration : Type :=
| CardListener (l : Home.Listener)
| TickInterval (ms : nat).             (* setInterval(tick, ms) *)

(** The page together with what the handler registered on theme cards
    and with [setInterval]. *)
Record Window : Type := mkWindow {
  document : Page.t;
  registered : list Registration
}.

Inductive Result : Type :=
| Finished (w : Window)
| Uncaught (e : Error) (w : Window).

Definition window_of (r : Result) : Window :=
  match r with
  | Finished w => w
  | Uncaught _ w => w
  end.

Definition register (rs : list Registration) (w : Window) : Window :=
  {| document := document w; registered := registered w ++ rs |}.

(** Run [m] on the document; an exception leaves the handler. *)
Definition run (m : M unit) (w : Window) (k : Window -> Result) : Result :=
  match m (document w) with
  | Returns _ p => k {| document := p; registered := registered w |}
  | Throws e p => Uncaught e {| document := p; registered := registered w |}
  end.

(** [attr === s] for the result of [getAttribute]. *)
Definition strictEq (attr : option string) (s : string) : bool :=
  match attr with
  | Some a => String.eqb a s
  | None => false
  end.

(** The listener of [DOMContentLoaded]: [dataPage] is the [data-page]
    attribute of the body, [cards] the [data-topic] attributes of the
    theme cards and [now] the clock reading of the first tick. *)
Definition onDOMContentLoaded (dataPage : option string)
    (cards : list string) (now : Clock.Instant) (w : Window) : Result :=
  let w :=
    if strictEq dataPage "home"
    then register (map CardListener (Home.initHomepage cards)) w
    else w in
  run (if strictEq dataPage "generate" then Report.initGeneratePage
       else Page.ret tt) w (fun w =>
  match getElementById "headerTimestamp" (document w) with
  | Returns (Some ts) _ =>
      run (Clock.tick (Some ts) now) w (fun w =>
      Finished (register [TickInterval 1000] w))
  | Returns None _ => Finished w
  | Throws e _ => Uncaught e w
  end).

End Boot.

(** ** Tokens of a class attribute *)

Module Tokens.
Import Dom.

(** [s] holds no white space. *)
Fixpoint spaceFree (s : string) : bool :=
  match s with
  | EmptyString => true
  | String c s' => negb (isSpace c) && spaceFree s'
  end.

(** [s] is a token: not empty and without white space. *)
Definition isToken (s : string) : bool :=
  negb (String.eqb s EmptyString) && spaceFree s.

End Tokens.

(** * Properties *)

(** ** Strings and markup *)

Section Markup.
Import Js Render.

Lemma append_cons (x : ascii) (a b : string) :
  String x a +:+ b = String x (a +:+ b).
Proof. reflexivity. Qed.

Lemma append_assoc (a b c : string) : (a +:+ b) +:+ c = a +:+ (b +:+ c).
Proof.
  induction a as [|x a IH]; [reflexivity|].
  now rewrite !append_cons, IH.
Qed.

Lemma append_empty_r (a : string) : a +:+ EmptyString = a.
Proof.
  induction a as [|x a IH]; [reflexivity|].
  now rewrite append_cons, IH.
Qed.

Lemma join_app (xs ys : list string) : join (xs ++ ys) = join xs +:+ join ys.
Proof.
  induction xs as [|x xs IH]; cbn [app join fold_right]; [reflexivity|].
  fold (join (xs ++ ys)). fold (join xs).
  now rewrite IH, append_assoc.
Qed.

(** The loop of 4g appends to [html] the markup of the blocks it emits. *)
Lemma narrativeLoop_blocks (c q : string) (paras : list string) :
  forall (i : nat) (html : string),
    narrativeLoop c q paras i html
    = html +:+ join (map blockHtml (narrativeBlocksFrom c q paras i)).
Proof.
  induction paras as [|p rest IH]; intros i html;
    cbn [narrativeLoop narrativeBlocksFrom map join fold_right].
  - now rewrite append_empty_r.
  - rewrite IH. destruct (i =? 1)%nat;
      cbn [app map join fold_right blockHtml].
    + now rewrite !append_assoc.
    + now rewrite append_assoc.
Qed.

Lemma narrativeHtml_blocks (c q : string) (paras : list string) :
  narrativeHtml c q paras = join (map blockHtml (narrativeBlocks c q paras)).
Proof. unfold narrativeHtml. now rewrite narrativeLoop_blocks. Qed.

(** From index 2 on the loop emits paragraphs only. *)
Lemma narrativeBlocksFrom_tail (c q : string) (paras : list string) :
  forall i : nat, 2 <= i -> narrativeBlocksFrom c q paras i = map Para paras.
Proof.
  induction paras as [|p rest IH]; intros i Hi; simpl; [reflexivity|].
  destruct (Nat.eqb_spec i 1) as [->|_]; [lia|].
  simpl. now rewrite IH by lia.
Qed.

Lemma narrativeBlocks_two (c q p0 p1 : string) (rest : list string) :
  narrativeBlocks c q (p0 :: p1 :: rest)
  = Para p0 :: Para p1 :: PullQuote c q :: map Para rest.
Proof.
  unfold narrativeBlocks. simpl.
  now rewrite narrativeBlocksFrom_tail by lia.
Qed.

Lemma narrativeBlocks_short (c q : string) (paras : list string) :
  length paras < 2 -> narrativeBlocks c q paras = map Para paras.
Proof.
  destruct paras as [|p0 [|p1 rest]]; simpl; intros H;
    [reflexivity | reflexivity | lia].
Qed.

Lemma filter_isPullQuote_paras (ps : list string) :
  List.filter isPullQuote (map Para ps) = [].
Proof. induction ps as [|p ps IH]; simpl; [reflexivity | exact IH]. Qed.

(** [join] is the concatenation of the library. *)
Lemma join_concat (l : list string) : join l = String.concat EmptyString l.
Proof.
  induction l as [|x l IH]; [reflexivity|].
  change (join (x :: l)) with (x +:+ join l). rewrite IH.
  destruct l as [|y l]; [apply append_empty_r | reflexivity].
Qed.

Lemma join_cons (x : string) (l : list string) : join (x :: l) = x +:+ join l.
Proof. reflexivity. Qed.

End Markup.

(** ** Running the sections of the renderer *)

Section Running.
Import Js Page Dom Render Report.
Local Open Scope js_scope.

Lemma bind_returns {A B : Type} (m : M A) (k : A -> M B) (p p' : Page.t)
    (a : A) :
  m p = Returns a p' -> Page.bind m k p = k a p'.
Proof. intros H. unfold Page.bind. now rewrite H. Qed.

Lemma bind_throws {A B : Type} (m : M A) (k : A -> M B) (p p' : Page.t)
    (e : Error) :
  m p = Throws e p' -> Page.bind m k p = Throws e p'.
Proof. intros H. unfold Page.bind. now rewrite H. Qed.

(** Updating an element that does not exist changes nothing. *)
Lemma update_absent (id : string) (f : Element -> Element) (p : Page.t) :
  present id p = false -> update id f p = p.
Proof.
  unfold present, update. destruct (elements p !! id) eqn:E; [discriminate|].
  intros _. rewrite alter_id' by exact E. now destruct p.
Qed.

Lemma present_update (id id' : string) (f : Element -> Element)
    (p : Page.t) :
  present id (update id' f p) = present id p.
Proof.
  unfold present, update; simpl. rewrite lookup_alter.
  destruct (decide (id' = id)) as [->|_]; [|reflexivity].
  now destruct (elements p !! id).
Qed.

Lemma present_retitle (id v : string) (p : Page.t) :
  present id (retitle v p) = present id p.
Proof. reflexivity. Qed.

Lemma present_addTimer (id : string) (tm : Timer) (p : Page.t) :
  present id (addTimer tm p) = present id p.
Proof. reflexivity. Qed.

Lemma getElementById_present (id : string) (p : Page.t) :
  present id p = true -> getElementById id p = Returns (Some id) p.
Proof.
  unfold present, getElementById. now destruct (elements p !! id).
Qed.

Lemma getElementById_absent (id : string) (p : Page.t) :
  present id p = false -> getElementById id p = Returns None p.
Proof.
  unfold present, getElementById. now destruct (elements p !! id).
Qed.

(** A guarded section: [const x = getElementById(id); if (x) body]. *)
Lemma guarded_run (id : string) (body : Ref -> M unit)
    (g : Page.t -> Page.t) (p : Page.t) :
  (present id p = true -> body (Some id) p = Returns tt (g p)) ->
  (present id p = false -> g p = p) ->
  (x <- getElementById id ;; when x (body x)) p = Returns tt (g p).
Proof.
  intros Hbody Hskip. destruct (present id p) eqn:E.
  - rewrite (bind_returns _ _ _ _ _ (getElementById_present _ _ E)).
    now apply Hbody.
  - rewrite (bind_returns _ _ _ _ _ (getElementById_absent _ _ E)).
    simpl. now rewrite Hskip.
Qed.

(** [guarded p] reduces a guarded section run on [p] to its body on a
    page with the region, and to the absence of change without it. *)
Ltac guarded p :=
  match goal with
  | |- _ = Returns tt ?r =>
      let g := eval pattern p in r in
      match g with
      | ?g' p => apply (guarded_run _ _ g'); cbv beta
      end
  end;
  [ intros _; reflexivity
  | let E := fresh "E" in
    intros E; now rewrite !update_absent by now rewrite ?present_update ].

(** Each guarded section, run on any page: it returns, and changes its
    own region only. *)

Lemma step4a_run (data : Property Profile.t) (p : Page.t) :
  step4a data p
  = Returns tt
      (retitle (interp (field Profile.topic data)
                +:+ " — ESG Narrative Intelligence") p).
Proof. reflexivity. Qed.

Lemma step4b_run (data : Property Profile.t) (p : Page.t) :
  step4b data p
  = Returns tt
      (update "topicBadge"
         (withClass ("gen-topic-badge "
                     +:+ interp (field Profile.colorClass data)))
         (update "topicBadge"
            (withText (Some (interp (field Profile.icon data) +:+ " "
                             +:+ interp (field Profile.topic data))))
            p)).
Proof.
  unfold step4b. guarded p. Qed.

Lemma step4c_run (date : string) (p : Page.t) :
  step4c date p
  = Returns tt (update "reportDate" (withText (Some date)) p).
Proof.
  unfold step4c. guarded p. Qed.

Lemma step4d_run (data : Property Profile.t) (p : Page.t) :
  header_ok p ->
  step4d data p
  = Returns tt
      (if present "reportHeader" p then
         update "reportTypeTag"
           (withText (Some (interp (field Profile.icon data) +:+ "  "
                            +:+ interp (field Profile.topic data)
                            +:+ " Narrative")))
           (update "reportTypeTag"
              (withClass ("report-type-tag "
                          +:+ interp (field Profile.colorClass data)))
              (update "reportHeader"
                 (withClass ("report-header "
                             +:+ interp (field Profile.colorClass data)))
                 p))
       else p).
Proof.
  intros Hok. unfold step4d. destruct (present "reportHeader" p) eqn:E.
  - specialize (Hok E).
    rewrite (bind_returns _ _ _ _ _ (getElementById_present _ _ E)).
    cbv beta. unfold when, setClassName at 1, assign at 1.
    erewrite bind_returns by reflexivity.
    erewrite bind_returns
      by (apply getElementById_present; now rewrite present_update).
    unfold setClassName at 1, assign at 1.
    erewrite bind_returns by reflexivity.
    erewrite bind_returns
      by (apply getElementById_present; now rewrite !present_update).
    reflexivity.
  - now rewrite (bind_returns _ _ _ _ _ (getElementById_absent _ _ E)).
Qed.

Lemma step4d_throws (data : Property Profile.t) (p : Page.t) :
  present "reportHeader" p = true ->
  present "reportTypeTag" p = false ->
  step4d data p
  = Throws TypeError
      (update "reportHeader"
         (withClass ("report-header "
                     +:+ interp (field Profile.colorClass data)))
         p).
Proof.
  intros E1 E2. unfold step4d.
  rewrite (bind_returns _ _ _ _ _ (getElementById_present _ _ E1)).
  cbv beta. unfold when, setClassName at 1, assign at 1.
  erewrite bind_returns by reflexivity.
  erewrite bind_returns
    by (apply getElementById_absent; now rewrite present_update).
  reflexivity.
Qed.

Lemma step4e_run (h : Heading.t) (p : Page.t) :
  present "reportTitle" p = true ->
  present "reportSubtitle" p = true ->
  step4e (Own h) p
  = Returns tt
      (update "reportSubtitle" (withText (Some (Heading.subtitle h)))
         (update "reportTitle" (withText (Some (Heading.title h))) p)).
Proof.
  intros E1 E2. unfold step4e.
  rewrite (bind_returns _ _ _ _ _ (getElementById_present _ _ E1)).
  cbv beta. erewrite bind_returns by reflexivity.
  erewrite bind_returns by reflexivity.
  erewrite bind_returns
    by (apply getElementById_present; now rewrite present_update).
  reflexivity.
Qed.

Lemma step4e_throws_title (t : Property Heading.t) (p : Page.t) :
  present "reportTitle" p = false ->
  step4e t p = Throws TypeError p.
Proof.
  intros E. unfold step4e.
  rewrite (bind_returns _ _ _ _ _ (getElementById_absent _ _ E)).
  now destruct t.
Qed.

Lemma step4f_run (d : Profile.t) (p : Page.t) :
  step4f (Own d) p
  = Returns tt
      (update "dataCardsGrid"
         (withHtml (dataCardsHtml (Profile.keyMetrics d))) p).
Proof. unfold step4f. guarded p. Qed.

Lemma step4g_run (d : Profile.t) (p : Page.t) :
  step4g (Own d) p
  = Returns tt
      (update "narrativeBody"
         (withHtml (narrativeHtml (Profile.colorClass d)
                      (Profile.pullQuote d) (Profile.paragraphs d)))
         p).
Proof. unfold step4g. guarded p. Qed.

Lemma step4h_run (d : Profile.t) (p : Page.t) :
  step4h (Own d) p
  = Returns tt
      (update "frameworkTags"
         (withHtml (frameworkTagsHtml (Profile.frameworks d))) p).
Proof. unfold step4h. guarded p. Qed.

Lemma step4i_run (data : Property Profile.t) (p : Page.t) :
  let shown := interp (numberToString <$> field Profile.integrity data) in
  step4i data p
  = Returns tt
      (if present "integrityFill" p && present "integrityLabel" p then
         addTimer
           (AnimationFrame
              (SetTimeout
                 (SetStyleWidth "integrityFill" (integrityWidth shown)) 300))
           (update "integrityLabel"
              (withText (Some (integrityLabelText shown))) p)
       else p).
Proof.
  intros shown. unfold step4i.
  destruct (present "integrityFill" p) eqn:E1;
    destruct (present "integrityLabel" p) eqn:E2; simpl;
    first [ rewrite (bind_returns _ _ _ _ _ (getElementById_present _ _ E1))
          | rewrite (bind_returns _ _ _ _ _ (getElementById_absent _ _ E1)) ];
    first [ rewrite (bind_returns _ _ _ _ _ (getElementById_present _ _ E2))
          | rewrite (bind_returns _ _ _ _ _ (getElementById_absent _ _ E2)) ];
    reflexivity.
Qed.

Lemma step4j_run (data : Property Profile.t) (p : Page.t) :
  step4j data p
  = Returns tt
      (update "audienceLabel" (withText (field Profile.audience data)) p).
Proof. unfold step4j. guarded p. Qed.

Lemma step4k_run (rows : list Trend.t) (p : Page.t) :
  step4k (Own rows) p
  = Returns tt (update "trendContainer" (withHtml (trendsHtml rows)) p).
Proof. unfold step4k. guarded p. Qed.

Lemma step4l_run (d : Profile.t) (p : Page.t) :
  step4l (Own d) p
  = Returns tt
      (update "fwAlignContainer"
         (withHtml (fwAlignHtml (Profile.frameworks d))) p).
Proof. unfold step4l. guarded p. Qed.

Lemma step4m_run (p : Page.t) :
  step4m p = Returns tt (update "exportBtn" (withListener PrintPage) p).
Proof. unfold step4m. guarded p. Qed.

(** Presence of a region after any number of updates. *)
Ltac presence :=
  rewrite ?present_update, ?present_retitle, ?present_addTimer.

(** With the regions that are read without a guard, [populate] returns
    and leaves the page [rendered]. *)
Lemma populate_run (d : Profile.t) (h : Heading.t) (rows : list Trend.t)
    (p : Page.t) :
  unguarded_ok p ->
  populate (Own d) (Own h) (Own rows) p = Returns tt (rendered d h rows p).
Proof.
  intros (Hhdr & Ht & Hs). unfold populate, rendered.
  rewrite (bind_returns _ _ p p (today p)) by reflexivity. cbv beta zeta.
  rewrite (bind_returns _ _ _ _ _ (step4a_run _ _)).
  rewrite (bind_returns _ _ _ _ _ (step4b_run _ _)).
  rewrite (bind_returns _ _ _ _ _ (step4c_run _ _)).
  erewrite bind_returns
    by (apply step4d_run; unfold header_ok; presence; exact Hhdr).
  presence.
  destruct (present "reportHeader" p) eqn:Eh;
    (erewrite bind_returns by (apply step4e_run; presence;
                               first [exact Ht | exact Hs]));
    rewrite (bind_returns _ _ _ _ _ (step4f_run _ _));
    rewrite (bind_returns _ _ _ _ _ (step4g_run _ _));
    rewrite (bind_returns _ _ _ _ _ (step4h_run _ _));
    rewrite (bind_returns _ _ _ _ _ (step4i_run _ _));
    presence;
    destruct (present "integrityFill" p && present "integrityLabel" p);
    rewrite (bind_returns _ _ _ _ _ (step4j_run _ _));
    rewrite (bind_returns _ _ _ _ _ (step4k_run _ _));
    rewrite (bind_returns _ _ _ _ _ (step4l_run _ _));
    apply step4m_run.
Qed.

(** *** What the sections leave alone *)

Lemma preserves_ret {A B : Type} (f : Page.t -> B) (a : A) :
  preserves f (Page.ret a).
Proof. intros p. reflexivity. Qed.

Lemma preserves_throw {A B : Type} (f : Page.t -> B) (e : Error) :
  preserves f (@Page.throw A e).
Proof. intros p. reflexivity. Qed.

Lemma preserves_bind {A B C : Type} (f : Page.t -> C) (m : M A)
    (k : A -> M B) :
  preserves f m -> (forall a, preserves f (k a)) ->
  preserves f (Page.bind m k).
Proof.
  intros Hm Hk p. unfold Page.bind. specialize (Hm p).
  destruct (m p) as [a p'|e p']; simpl in *; [|exact Hm].
  now rewrite Hk.
Qed.

Lemma preserves_getElementById {B : Type} (f : Page.t -> B) (id : string) :
  preserves f (getElementById id).
Proof.
  intros p. unfold getElementById. now destruct (elements p !! id).
Qed.

Lemma preserves_when {B : Type} (f : Page.t -> B) (ref : Ref)
    (body : M unit) :
  preserves f body -> preserves f (when ref body).
Proof. intros H. destruct ref; [exact H | apply preserves_ret]. Qed.

Lemma preserves_defined {A B : Type} (f : Page.t -> B) (x : option A) :
  preserves f (defined x).
Proof. destruct x; intros p; reflexivity. Qed.

Lemma preserves_member {A B C : Type} (f : Page.t -> C) (g : A -> B)
    (v : Property A) :
  preserves f (member g v).
Proof. destruct v; intros p; reflexivity. Qed.

Lemma preserves_schedule {B : Type} (f : Page.t -> B) (tm : Timer) :
  (forall p, f (addTimer tm p) = f p) -> preserves f (schedule tm).
Proof. intros H p. apply H. Qed.

Lemma preserves_assign {B : Type} (f : Page.t -> B) (ref : Ref)
    (g : Element -> Element) :
  (forall id p, f (update id g p) = f p) -> preserves f (assign ref g).
Proof. intros H. destruct ref; intros p; [apply H | reflexivity]. Qed.

Lemma storage_blind_ret {A : Type} (a : A) : storage_blind (Page.ret a).
Proof. intros s p. reflexivity. Qed.

Lemma storage_blind_throw {A : Type} (e : Error) :
  storage_blind (@Page.throw A e).
Proof. intros s p. reflexivity. Qed.

Lemma storage_blind_bind {A B : Type} (m : M A) (k : A -> M B) :
  storage_blind m -> (forall a, storage_blind (k a)) ->
  storage_blind (Page.bind m k).
Proof.
  intros Hm Hk s p. unfold Page.bind. rewrite Hm.
  destruct (m p) as [a p'|e p']; simpl; [apply Hk | reflexivity].
Qed.

Lemma storage_blind_getElementById (id : string) :
  storage_blind (getElementById id).
Proof.
  intros s p. unfold getElementById; simpl.
  now destruct (elements p !! id).
Qed.

Lemma storage_blind_when (ref : Ref) (body : M unit) :
  storage_blind body -> storage_blind (when ref body).
Proof. intros H. destruct ref; [exact H | apply storage_blind_ret]. Qed.

Lemma storage_blind_defined {A : Type} (x : option A) :
  storage_blind (defined x).
Proof. destruct x; intros s p; reflexivity. Qed.

Lemma storage_blind_member {A B : Type} (g : A -> B) (v : Property A) :
  storage_blind (member g v).
Proof. destruct v; intros s p; reflexivity. Qed.

Lemma storage_blind_assign (ref : Ref) (g : Element -> Element) :
  storage_blind (assign ref g).
Proof. destruct ref as [id|]; intros st p; reflexivity. Qed.

Lemma storage_blind_schedule (tm : Timer) : storage_blind (schedule tm).
Proof. intros s p. reflexivity. Qed.

Lemma storage_blind_setTitle (v : string) : storage_blind (setTitle v).
Proof. intros s p. reflexivity. Qed.

Lemma storage_blind_getReportDate : storage_blind getReportDate.
Proof. intros s p. reflexivity. Qed.

(** [frame] walks through a section and closes the goal with the lemmas
    above. *)
Ltac frame :=
  repeat first
    [ apply preserves_bind; [|intros ?]
    | apply storage_blind_bind; [|intros ?]
    | apply preserves_when
    | apply storage_blind_when
    | apply preserves_getElementById
    | apply storage_blind_getElementById
    | apply preserves_defined
    | apply storage_blind_defined
    | apply preserves_member
    | apply storage_blind_member
    | apply storage_blind_assign
    | apply storage_blind_schedule
    | apply storage_blind_setTitle
    | apply storage_blind_getReportDate
    | apply storage_blind_ret
    | apply preserves_ret
    | (apply preserves_assign; intros ? ?; reflexivity)
    | (apply preserves_schedule; intros ?; reflexivity) ].

Ltac unfold_steps :=
  unfold populate, step4a, step4b, step4c, step4d, step4e, step4f, step4g,
    step4h, step4i, step4j, step4k, step4l, step4m, setTextContent,
    setClassName, setInnerHTML, addClickListener.

(** After 4a no section writes the document title. *)
Lemma populate_title (data : Property Profile.t) (t : Property Heading.t)
    (rows : Property (list Trend.t)) (p : Page.t) :
  title (page_of (populate data t rows p))
  = interp (field Profile.topic data) +:+ " — ESG Narrative Intelligence".
Proof.
  unfold populate.
  rewrite (bind_returns _ _ p p (today p)) by reflexivity. cbv beta.
  rewrite (bind_returns _ _ _ _ _ (step4a_run _ _)).
  match goal with
  | |- title (page_of (?m ?q)) = _ =>
      assert (H : preserves title m); [|now rewrite H]
  end.
  unfold_steps. frame.
Qed.

(** The renderer never writes the session storage. *)
Lemma populate_sessionStorage (data : Property Profile.t)
    (t : Property Heading.t) (rows : Property (list Trend.t)) :
  preserves sessionStorage (populate data t rows).
Proof.
  unfold_steps. frame.
  - intros p. reflexivity.
  - intros p. reflexivity.
Qed.

(** Nor does it read it after the topic is resolved. *)
Lemma populate_storage_blind (data : Property Profile.t)
    (t : Property Heading.t) (rows : Property (list Trend.t)) :
  storage_blind (populate data t rows).
Proof. unfold_steps. frame. Qed.

(** *** Reading a region after updates *)

Lemma textOf_update_ne (id id' : string) (f : Element -> Element)
    (p : Page.t) :
  id' <> id -> textOf id (update id' f p) = textOf id p.
Proof.
  intros H. unfold textOf, update; simpl. now rewrite lookup_alter_ne.
Qed.

Lemma htmlOf_update_ne (id id' : string) (f : Element -> Element)
    (p : Page.t) :
  id' <> id -> htmlOf id (update id' f p) = htmlOf id p.
Proof.
  intros H. unfold htmlOf, update; simpl. now rewrite lookup_alter_ne.
Qed.

Lemma textOf_update_keep (id id' : string) (f : Element -> Element)
    (p : Page.t) :
  (forall e, textContent (f e) = textContent e) ->
  textOf id (update id' f p) = textOf id p.
Proof.
  intros H. unfold textOf, update; simpl. rewrite lookup_alter.
  destruct (decide (id' = id)) as [->|_]; [|reflexivity].
  destruct (elements p !! id); simpl; [now rewrite H | reflexivity].
Qed.

Lemma htmlOf_update_keep (id id' : string) (f : Element -> Element)
    (p : Page.t) :
  (forall e, innerHTML (f e) = innerHTML e) ->
  htmlOf id (update id' f p) = htmlOf id p.
Proof.
  intros H. unfold htmlOf, update; simpl. rewrite lookup_alter.
  destruct (decide (id' = id)) as [->|_]; [|reflexivity].
  destruct (elements p !! id); simpl; [now rewrite H | reflexivity].
Qed.

Lemma textOf_update_withText (id : string) (v : option string)
    (p : Page.t) :
  textOf id (update id (withText v) p)
  = (fun _ => default EmptyString v) <$> textOf id p.
Proof.
  unfold textOf, update; simpl. rewrite lookup_alter_eq.
  now destruct (elements p !! id).
Qed.

Lemma htmlOf_update_withHtml (id v : string) (p : Page.t) :
  htmlOf id (update id (withHtml v) p) = (fun _ => v) <$> htmlOf id p.
Proof.
  unfold htmlOf, update; simpl. rewrite lookup_alter_eq.
  now destruct (elements p !! id).
Qed.

Lemma textOf_present (id : string) (p : Page.t) :
  present id p = true -> exists s, textOf id p = Some s.
Proof.
  unfold present, textOf. destruct (elements p !! id); [eauto | discriminate].
Qed.

Lemma textOf_addTimer (id : string) (tm : Timer) (p : Page.t) :
  textOf id (addTimer tm p) = textOf id p.
Proof. reflexivity. Qed.

Lemma textOf_retitle (id v : string) (p : Page.t) :
  textOf id (retitle v p) = textOf id p.
Proof. reflexivity. Qed.

(** [through] moves a read of [textOf] past the updates of other
    regions and of other attributes. *)
Ltac through :=
  repeat first
    [ rewrite textOf_addTimer
    | rewrite textOf_retitle
    | rewrite textOf_update_ne by discriminate
    | rewrite textOf_update_keep by (intros ?; reflexivity) ].

Lemma rendered_reportTitle (d : Profile.t) (h : Heading.t)
    (rows : list Trend.t) (p : Page.t) :
  present "reportTitle" p = true ->
  textOf "reportTitle" (rendered d h rows p) = Some (Heading.title h).
Proof.
  intros Ht. unfold rendered. cbv zeta.
  destruct (present "integrityFill" p && present "integrityLabel" p);
    destruct (present "reportHeader" p);
    through; rewrite textOf_update_withText; through;
    destruct (textOf_present _ _ Ht) as [s ->]; reflexivity.
Qed.

Lemma rendered_integrityLabel (d : Profile.t) (h : Heading.t)
    (rows : list Trend.t) (p : Page.t) :
  present "integrityFill" p = true ->
  present "integrityLabel" p = true ->
  textOf "integrityLabel" (rendered d h rows p)
  = Some (integrityLabelText (numberToString (Profile.integrity d))).
Proof.
  intros Hf Hl. unfold rendered. cbv zeta. rewrite Hf, Hl. simpl andb.
  cbv iota.
  destruct (present "reportHeader" p);
    through; rewrite textOf_update_withText; through;
    destruct (textOf_present _ _ Hl) as [s ->]; reflexivity.
Qed.

(** Without [reportTitle] the renderer throws in 4e, whatever the
    profile, and no region has received markup. *)
Lemma populate_without_title (d : Profile.t) (t : Property Heading.t)
    (rows : Property (list Trend.t)) (p : Page.t) :
  header_ok p ->
  present "reportTitle" p = false ->
  returned (populate (Own d) t rows p) = false
  /\ forall id, htmlOf id (page_of (populate (Own d) t rows p)) = htmlOf id p.
Proof.
  intros Hhdr Ht. unfold populate.
  rewrite (bind_returns _ _ p p (today p)) by reflexivity. cbv beta.
  rewrite (bind_returns _ _ _ _ _ (step4a_run _ _)).
  rewrite (bind_returns _ _ _ _ _ (step4b_run _ _)).
  rewrite (bind_returns _ _ _ _ _ (step4c_run _ _)).
  erewrite bind_returns
    by (apply step4d_run; unfold header_ok; presence; exact Hhdr).
  presence.
  destruct (present "reportHeader" p);
    (erewrite bind_throws by (apply step4e_throws_title; presence; exact Ht));
    (split; [reflexivity|]); intros id; simpl page_of;
    now rewrite !htmlOf_update_keep by (intros ?; reflexivity).
Qed.

(** *** Resolving the topic *)

Lemma initGeneratePage_unfold (p : Page.t) :
  initGeneratePage p
  = let topic := activeTopic (sessionStorage p !! "esg_topic") in
    let data := get DATA_PROFILES topic in
    if negb (truthy data) then Returns tt p
    else populate data (get titles topic) (get trends topic) p.
Proof.
  unfold initGeneratePage, Page.bind, getItem. cbv zeta.
  now destruct (negb _).
Qed.

Lemma climate_entries :
  get DATA_PROFILES "climate" = Own climate
  /\ get titles "climate" = Own climate_heading
  /\ get trends "climate" = Own climate_trends.
Proof. repeat split; vm_compute; reflexivity. Qed.

(** With the default topic the renderer populates from the three
    climate entries. *)
Lemma initGeneratePage_default (p : Page.t) :
  activeTopic (sessionStorage p !! "esg_topic") = "climate" ->
  initGeneratePage p
  = populate (Own climate) (Own climate_heading) (Own climate_trends) p.
Proof.
  intros H. rewrite initGeneratePage_unfold. cbv zeta. rewrite H.
  destruct climate_entries as (-> & -> & ->). reflexivity.
Qed.

(** A topic that the store does not resolve: the renderer returns and
    the page is as it was. *)
Lemma initGeneratePage_unresolved (p : Page.t) :
  get DATA_PROFILES (activeTopic (sessionStorage p !! "esg_topic"))
  = Undefined ->
  initGeneratePage p = Returns tt p.
Proof.
  intros H. rewrite initGeneratePage_unfold. cbv zeta. now rewrite H.
Qed.

End Running.

(** ** Narrative region and pull quote *)

Section Narrative.
Import Js Page Dom Render Report.

(** C4, as stated, fails: with a single paragraph the narrative region is
    that paragraph alone and holds no pull-quote block, and with no
    paragraph it is empty. *)
Lemma pull_quote_absent_below_two :
  step4g (Own Fixture.oneParagraph) (Fixture.page ["narrativeBody"] None)
  = Returns tt
      (update "narrativeBody" (withHtml "<p>Withdrawal fell.</p>")
         (Fixture.page ["narrativeBody"] None))
  /\ narrativeBlocks "water" "Every drop counts." ["Withdrawal fell."]
     = [Para "Withdrawal fell."]
  /\ List.filter isPullQuote
       (narrativeBlocks "water" "Every drop counts." ["Withdrawal fell."])
     = []
  /\ narrativeHtml "water" "Every drop counts." [] = EmptyString.
Proof. repeat split; vm_compute; reflexivity. Qed.

(** The markup of 4g for two paragraphs or more, written out. *)
Lemma narrativeHtml_two (c q p0 p1 : string) (rest : list string) :
  narrativeHtml c q (p0 :: p1 :: rest)
  = ("<p>" +:+ p0 +:+ "</p>") +:+ ("<p>" +:+ p1 +:+ "</p>")
    +:+ (nl +:+ "          <div class=" +:+ dq +:+ "pull-quote " +:+ c +:+ dq
         +:+ ">" +:+ nl +:+ "            <p>" +:+ dq +:+ q +:+ dq +:+ "</p>"
         +:+ nl +:+ "          </div>" +:+ nl +:+ "        ")
    +:+ String.concat EmptyString (map (fun x => "<p>" +:+ x +:+ "</p>") rest).
Proof.
  rewrite narrativeHtml_blocks, narrativeBlocks_two.
  cbn [map]. rewrite !join_cons, join_concat, map_map. reflexivity.
Qed.

(** The markup of 4g for fewer than two paragraphs, written out. *)
Lemma narrativeHtml_short (c q : string) (paras : list string) :
  length paras < 2 ->
  narrativeHtml c q paras
  = String.concat EmptyString (map (fun x => "<p>" +:+ x +:+ "</p>") paras).
Proof.
  intros H. rewrite narrativeHtml_blocks, narrativeBlocks_short by exact H.
  rewrite join_concat, map_map. reflexivity.
Qed.

(** C4, amended: the pull-quote block is emitted by the iteration of
    index 1 and by no other.  With two or more paragraphs the markup
    written to the narrative region is the first two paragraphs, then the
    pull-quote block with the colour class and the quoted text of the
    profile, then the remaining paragraphs; with fewer than two paragraphs
    it is the paragraphs alone, without any pull quote. *)
Theorem pull_quote_placement (d : Profile.t) (p : Page.t) :
  let c := Profile.colorClass d in
  let q := Profile.pullQuote d in
  let paras := Profile.paragraphs d in
  narrativeBlocks c q paras
  = (if (2 <=? length paras)%nat
     then (map Para (take 2 paras)
           ++ PullQuote c q :: map Para (drop 2 paras))%list
     else map Para paras)
  /\ step4g (Own d) p
     = Returns tt
         (update "narrativeBody"
            (withHtml (join (map blockHtml (narrativeBlocks c q paras)))) p)
  /\ (forall (p0 p1 : string) (rest : list string),
        paras = p0 :: p1 :: rest ->
        step4g (Own d) p
        = Returns tt
            (update "narrativeBody"
               (withHtml
                  (("<p>" +:+ p0 +:+ "</p>") +:+ ("<p>" +:+ p1 +:+ "</p>")
                   +:+ (nl +:+ "          <div class=" +:+ dq +:+ "pull-quote " +:+ c +:+ dq
                        +:+ ">" +:+ nl +:+ "            <p>" +:+ dq +:+ q +:+ dq +:+ "</p>"
                        +:+ nl +:+ "          </div>" +:+ nl +:+ "        ")
                   +:+ String.concat EmptyString (map (fun x => "<p>" +:+ x +:+ "</p>") rest)))
               p))
  /\ (length paras < 2 ->
      step4g (Own d) p
      = Returns tt
          (update "narrativeBody"
             (withHtml
                (String.concat EmptyString
                   (map (fun x => "<p>" +:+ x +:+ "</p>") paras)))
             p))
  /\ dq = String "034"%char EmptyString
  /\ nl = String "010"%char EmptyString.
Proof.
  intros c q paras. split; [|split; [|split; [|split; [|split]]]].
  - destruct (Nat.leb_spec 2 (length paras)) as [H|H].
    + destruct paras as [|p0 [|p1 rest]]; simpl in H; try lia.
      apply narrativeBlocks_two.
    + now apply narrativeBlocks_short.
  - rewrite step4g_run. now rewrite narrativeHtml_blocks.
  - intros p0 p1 rest E. rewrite step4g_run. fold c q paras.
    now rewrite E, narrativeHtml_two.
  - intros H. rewrite step4g_run. fold c q paras.
    now rewrite narrativeHtml_short by exact H.
  - reflexivity.
  - reflexivity.
Qed.

(** A profile with three paragraphs, and the profile with one. *)
Lemma pull_quote_placement_witness :
  step4g
    (Own (Profile.mk "T" "i" "c" [] [] "Q" ["a"; "b"; "x"] 1 "A"))
    (Fixture.page ["narrativeBody"] None)
  = Returns tt
      (update "narrativeBody"
         (withHtml
            ("<p>a</p><p>b</p>" +:+ nl +:+ "          <div class=" +:+ dq
             +:+ "pull-quote c" +:+ dq +:+ ">" +:+ nl +:+ "            <p>"
             +:+ dq +:+ "Q" +:+ dq +:+ "</p>" +:+ nl +:+ "          </div>"
             +:+ nl +:+ "        <p>x</p>"))
         (Fixture.page ["narrativeBody"] None))
  /\ step4g (Own Fixture.oneParagraph) (Fixture.page ["narrativeBody"] None)
     = Returns tt
         (update "narrativeBody" (withHtml "<p>Withdrawal fell.</p>")
            (Fixture.page ["narrativeBody"] None)).
Proof.
  split.
  - apply (proj1 (proj2 (proj2
             (pull_quote_placement
                (Profile.mk "T" "i" "c" [] [] "Q" ["a"; "b"; "x"] 1 "A")
                (Fixture.page ["narrativeBody"] None))))
             "a" "b" ["x"]).
    reflexivity.
  - apply (proj1 (proj2 (proj2 (proj2
             (pull_quote_placement Fixture.oneParagraph
                (Fixture.page ["narrativeBody"] None)))))).
    simpl. lia.
Defined.

(** C5: for a profile with at least two paragraphs the markup written to
    the narrative region is the first two paragraphs, then the pull-quote
    block, then the other paragraphs, each in its template; the pull-quote
    block occurs once, and the blocks other than it are the paragraphs in
    their order. *)
Theorem pull_quote_once_after_second (d : Profile.t) (p : Page.t) :
  2 <= length (Profile.paragraphs d) ->
  let c := Profile.colorClass d in
  let q := Profile.pullQuote d in
  let paras := Profile.paragraphs d in
  let blocks := narrativeBlocks c q paras in
  blocks
  = (map Para (take 2 paras) ++ [PullQuote c q] ++ map Para (drop 2 paras))%list
  /\ length (take 2 paras) = 2
  /\ length (List.filter isPullQuote blocks) = 1
  /\ List.filter (fun b => negb (isPullQuote b)) blocks = map Para paras
  /\ htmlOf "narrativeBody" (page_of (step4g (Own d) p))
     = (fun _ => join (map blockHtml blocks)) <$> htmlOf "narrativeBody" p
  /\ (exists (p0 p1 : string) (rest : list string),
        paras = p0 :: p1 :: rest
        /\ htmlOf "narrativeBody" (page_of (step4g (Own d) p))
           = (fun _ =>
                ("<p>" +:+ p0 +:+ "</p>") +:+ ("<p>" +:+ p1 +:+ "</p>")
                +:+ (nl +:+ "          <div class=" +:+ dq +:+ "pull-quote " +:+ c +:+ dq
                     +:+ ">" +:+ nl +:+ "            <p>" +:+ dq +:+ q +:+ dq +:+ "</p>"
                     +:+ nl +:+ "          </div>" +:+ nl +:+ "        ")
                +:+ String.concat EmptyString (map (fun x => "<p>" +:+ x +:+ "</p>") rest))
             <$> htmlOf "narrativeBody" p)
  /\ dq = String "034"%char EmptyString
  /\ nl = String "010"%char EmptyString.
Proof.
  intros H c q paras blocks. subst blocks paras.
  destruct (Profile.paragraphs d) as [|p0 [|p1 rest]] eqn:E;
    simpl in H; try lia.
  rewrite narrativeBlocks_two. simpl take. simpl drop.
  assert (Hkeep : forall ps,
             List.filter (fun b => negb (isPullQuote b)) (map Para ps)
             = map Para ps).
  { induction ps as [|x ps IH]; simpl; [reflexivity | now rewrite IH]. }
  split; [reflexivity|]. split; [reflexivity|].
  split; [simpl; now rewrite filter_isPullQuote_paras|].
  split; [simpl; now rewrite Hkeep|].
  split; [|split; [|split; reflexivity]].
  - rewrite step4g_run. simpl page_of. rewrite htmlOf_update_withHtml.
    rewrite narrativeHtml_blocks, E, narrativeBlocks_two. reflexivity.
  - exists p0, p1, rest. split; [reflexivity|].
    rewrite step4g_run. simpl page_of. rewrite htmlOf_update_withHtml.
    subst c q. now rewrite E, narrativeHtml_two.
Qed.

(** A profile with three paragraphs on a page with the narrative
    region. *)
Lemma pull_quote_once_after_second_witness :
  exists (p0 p1 : string) (rest : list string),
    ["a"; "b"; "x"] = p0 :: p1 :: rest
    /\ htmlOf "narrativeBody"
         (page_of
            (step4g
               (Own (Profile.mk "T" "i" "c" [] [] "Q" ["a"; "b"; "x"] 1 "A"))
               (Fixture.page ["narrativeBody"] None)))
       = Some
           (("<p>" +:+ p0 +:+ "</p>") +:+ ("<p>" +:+ p1 +:+ "</p>")
            +:+ (nl +:+ "          <div class=" +:+ dq +:+ "pull-quote "
                 +:+ "c" +:+ dq +:+ ">" +:+ nl +:+ "            <p>" +:+ dq
                 +:+ "Q" +:+ dq +:+ "</p>" +:+ nl +:+ "          </div>"
                 +:+ nl +:+ "        ")
            +:+ String.concat EmptyString
                  (map (fun x => "<p>" +:+ x +:+ "</p>") rest)).
Proof.
  destruct (pull_quote_once_after_second
              (Profile.mk "T" "i" "c" [] [] "Q" ["a"; "b"; "x"] 1 "A")
              (Fixture.page ["narrativeBody"] None))
    as (_ & _ & _ & _ & _ & (p0 & p1 & rest & E & H) & _).
  - simpl. lia.
  - exists p0, p1, rest. split; [exact E | exact H].
Defined.

End Narrative.

(** ** Metric cards and framework alignment *)

Section Sidebar.
Import Js Page Dom Render Report.

(** C6: the entry of [fwStatus] at index [i] carries the framework at
    index [i] with a status and a label that depend on [i] alone: ready
    below 3, partial at 3, pending above 3, whatever the length of the
    list; these entries are what 4l renders. *)
Theorem framework_status_by_index (frameworks : list string) (i : nat) :
  fwStatus frameworks !! i
  = (fun f => {| FwStatus.name := f;
                 FwStatus.status := statusOf i;
                 FwStatus.label := labelOf i |}) <$> frameworks !! i
  /\ length (fwStatus frameworks) = length frameworks
  /\ ((i < 3 /\ statusOf i = "ready" /\ labelOf i = "✓ Ready")
      \/ (i = 3 /\ statusOf i = "partial" /\ labelOf i = "◑ Partial")
      \/ (3 < i /\ statusOf i = "pending" /\ labelOf i = "○ Pending"))
  /\ (forall (d : Profile.t) (p : Page.t),
        step4l (Own d) p
        = Returns tt
            (update "fwAlignContainer"
               (withHtml
                  (join (map fwAlignRowHtml (fwStatus (Profile.frameworks d)))))
               p)).
Proof.
  repeat split.
  - unfold fwStatus. now rewrite list_lookup_imap.
  - unfold fwStatus. now rewrite length_imap.
  - unfold statusOf, labelOf.
    destruct (Nat.ltb_spec i 3) as [Hlt|Hge]; [left; now repeat split|].
    destruct (Nat.eqb_spec i 3) as [->|Hne]; [right; left; now repeat split|].
    right; right. repeat split. lia.
  - intros d p. apply step4l_run.
Qed.

(** The statuses for lists of length 0, 1, 3, 4 and 5. *)
Example framework_status_lengths :
  map FwStatus.status (fwStatus []) = []
  /\ map FwStatus.status (fwStatus ["a"]) = ["ready"]
  /\ map FwStatus.status (fwStatus ["a"; "b"; "c"])
     = ["ready"; "ready"; "ready"]
  /\ map FwStatus.status (fwStatus ["a"; "b"; "c"; "d"])
     = ["ready"; "ready"; "ready"; "partial"]
  /\ map FwStatus.status (fwStatus ["a"; "b"; "c"; "d"; "e"])
     = ["ready"; "ready"; "ready"; "partial"; "pending"].
Proof. repeat split. Qed.

(** The cards of metrics whose pillar is E, S or G, written out. *)
Lemma dataCards_literal (ms : list Metric.t) :
  Forall (fun m => In (Metric.pillar m) ["E"; "S"; "G"]) ms ->
  dataCards ms
  = map
      (fun m : Metric.t =>
         nl +:+ "      <div class=" +:+ dq +:+ "esg-data-card "
         +:+ (if String.eqb (Metric.pillar m) "E" then "e"
              else if String.eqb (Metric.pillar m) "S" then "s" else "g")
         +:+ dq +:+ ">" +:+ nl +:+ "        <div class=" +:+ dq
         +:+ "dc-pillar" +:+ dq +:+ ">● "
         +:+ (if String.eqb (Metric.pillar m) "E" then "Environmental"
              else if String.eqb (Metric.pillar m) "S" then "Social"
              else "Governance")
         +:+ "</div>" +:+ nl +:+ "        <div class=" +:+ dq +:+ "dc-value"
         +:+ dq +:+ ">" +:+ Metric.value m +:+ "<span style=" +:+ dq
         +:+ "font-size:14px;font-family:'Source Serif 4',serif;font-weight:300;"
         +:+ dq +:+ ">" +:+ Metric.unit m +:+ "</span></div>" +:+ nl
         +:+ "        <div class=" +:+ dq +:+ "dc-label" +:+ dq +:+ ">"
         +:+ Metric.label m +:+ "</div>" +:+ nl +:+ "        <div class="
         +:+ dq +:+ "dc-change " +:+ Metric.dir m +:+ dq +:+ ">"
         +:+ (if String.eqb (Metric.dir m) "up" then "▲"
              else if String.eqb (Metric.dir m) "down" then "▼" else "—")
         +:+ " " +:+ Metric.change m +:+ "</div>" +:+ nl +:+ "      </div>"
         +:+ nl +:+ "    ")
      ms.
Proof.
  intros H. unfold dataCards. apply map_ext_Forall.
  apply (Forall_impl _ _ _ H). intros m Hin.
  unfold cardHtml, pillarWord, dirGlyph. simpl in Hin.
  destruct Hin as [<-|[<-|[<-|[]]]]; reflexivity.
Qed.

(** C7: for a profile whose metrics have a pillar among E, S and G, as
    the data model has it, the markup written to the metrics grid is the
    concatenation of one card per metric record, in the order of the
    array; the card of a metric carries the word of its pillar, where E, S
    and G give Environmental, Social and Governance, and the glyph of its
    direction, where up, down and flat give the three glyphs. *)
Theorem metric_cards_in_order (d : Profile.t) (p : Page.t) (i : nat) :
  Forall (fun m => In (Metric.pillar m) ["E"; "S"; "G"])
    (Profile.keyMetrics d) ->
  let card :=
    (fun m : Metric.t =>
       nl +:+ "      <div class=" +:+ dq +:+ "esg-data-card "
       +:+ (if String.eqb (Metric.pillar m) "E" then "e"
            else if String.eqb (Metric.pillar m) "S" then "s" else "g")
       +:+ dq +:+ ">" +:+ nl +:+ "        <div class=" +:+ dq
       +:+ "dc-pillar" +:+ dq +:+ ">● "
       +:+ (if String.eqb (Metric.pillar m) "E" then "Environmental"
            else if String.eqb (Metric.pillar m) "S" then "Social"
            else "Governance")
       +:+ "</div>" +:+ nl +:+ "        <div class=" +:+ dq +:+ "dc-value"
       +:+ dq +:+ ">" +:+ Metric.value m +:+ "<span style=" +:+ dq
       +:+ "font-size:14px;font-family:'Source Serif 4',serif;font-weight:300;"
       +:+ dq +:+ ">" +:+ Metric.unit m +:+ "</span></div>" +:+ nl
       +:+ "        <div class=" +:+ dq +:+ "dc-label" +:+ dq +:+ ">"
       +:+ Metric.label m +:+ "</div>" +:+ nl +:+ "        <div class="
       +:+ dq +:+ "dc-change " +:+ Metric.dir m +:+ dq +:+ ">"
       +:+ (if String.eqb (Metric.dir m) "up" then "▲"
            else if String.eqb (Metric.dir m) "down" then "▼" else "—")
       +:+ " " +:+ Metric.change m +:+ "</div>" +:+ nl +:+ "      </div>"
       +:+ nl +:+ "    ") in
  step4f (Own d) p
  = Returns tt
      (update "dataCardsGrid"
         (withHtml
            (String.concat EmptyString (map card (Profile.keyMetrics d))))
         p)
  /\ length (dataCards (Profile.keyMetrics d))
     = length (Profile.keyMetrics d)
  /\ dataCards (Profile.keyMetrics d) !! i
     = card <$> Profile.keyMetrics d !! i
  /\ pillarWord "E" = "Environmental"
  /\ pillarWord "S" = "Social"
  /\ pillarWord "G" = "Governance"
  /\ dirGlyph "up" = "▲"
  /\ dirGlyph "down" = "▼"
  /\ dirGlyph "flat" = "—"
  /\ dq = String "034"%char EmptyString
  /\ nl = String "010"%char EmptyString.
Proof.
  intros H card.
  assert (Hmap : dataCards (Profile.keyMetrics d)
                 = map card (Profile.keyMetrics d))
    by exact (dataCards_literal _ H).
  split.
  { rewrite step4f_run. unfold dataCardsHtml.
    now rewrite join_concat, Hmap. }
  split; [apply length_map|].
  split; [rewrite Hmap; apply list_lookup_fmap|].
  repeat split.
Qed.

(** A profile with two metrics on a page with the grid. *)
Lemma metric_cards_in_order_witness :
  step4f
    (Own (Profile.mk "T" "i" "c" []
            [Metric.mk "E" "1" "u" "L" "+1" "up";
             Metric.mk "G" "2" "v" "M" "-1" "flat"]
            "Q" [] 1 "A"))
    (Fixture.page ["dataCardsGrid"] None)
  = Returns tt
      (update "dataCardsGrid"
         (withHtml
            (nl +:+ "      <div class=" +:+ dq +:+ "esg-data-card e" +:+ dq
             +:+ ">" +:+ nl +:+ "        <div class=" +:+ dq +:+ "dc-pillar"
             +:+ dq +:+ ">● Environmental</div>" +:+ nl
             +:+ "        <div class=" +:+ dq +:+ "dc-value" +:+ dq
             +:+ ">1<span style=" +:+ dq
             +:+ "font-size:14px;font-family:'Source Serif 4',serif;font-weight:300;"
             +:+ dq +:+ ">u</span></div>" +:+ nl +:+ "        <div class="
             +:+ dq +:+ "dc-label" +:+ dq +:+ ">L</div>" +:+ nl
             +:+ "        <div class=" +:+ dq +:+ "dc-change up" +:+ dq
             +:+ ">▲ +1</div>" +:+ nl +:+ "      </div>" +:+ nl +:+ "    "
             +:+ nl +:+ "      <div class=" +:+ dq +:+ "esg-data-card g" +:+ dq
             +:+ ">" +:+ nl +:+ "        <div class=" +:+ dq +:+ "dc-pillar"
             +:+ dq +:+ ">● Governance</div>" +:+ nl
             +:+ "        <div class=" +:+ dq +:+ "dc-value" +:+ dq
             +:+ ">2<span style=" +:+ dq
             +:+ "font-size:14px;font-family:'Source Serif 4',serif;font-weight:300;"
             +:+ dq +:+ ">v</span></div>" +:+ nl +:+ "        <div class="
             +:+ dq +:+ "dc-label" +:+ dq +:+ ">M</div>" +:+ nl
             +:+ "        <div class=" +:+ dq +:+ "dc-change flat" +:+ dq
             +:+ ">— -1</div>" +:+ nl +:+ "      </div>" +:+ nl +:+ "    "))
         (Fixture.page ["dataCardsGrid"] None)).
Proof.
  refine (proj1
            (metric_cards_in_order
               (Profile.mk "T" "i" "c" []
                  [Metric.mk "E" "1" "u" "L" "+1" "up";
                   Metric.mk "G" "2" "v" "M" "-1" "flat"]
                  "Q" [] 1 "A")
               (Fixture.page ["dataCardsGrid"] None) 0 _)).
  apply Forall_cons; split; [left; reflexivity|].
  apply Forall_cons; split; [right; right; left; reflexivity|].
  constructor.
Defined.

End Sidebar.

(** ** The three tables *)

Section Store.
Import Js Page Dom Render Report.

(** Each of the three supported topic identifiers has an entry in the
    profile store, in [titles] and in [trends], none of them empty, and
    passes the check of the landing controller; the three identifiers are
    the keys of each of the three tables. *)
Lemma supported_topics_have_entries :
  Forall
    (fun id : string =>
       (exists d : Profile.t,
           DATA_PROFILES !! id = Some d
           /\ Profile.topic d <> EmptyString
           /\ Profile.frameworks d <> []
           /\ Profile.keyMetrics d <> []
           /\ Profile.paragraphs d <> []
           /\ Profile.pullQuote d <> EmptyString)
       /\ (exists h : Heading.t,
              titles !! id = Some h
              /\ Heading.title h <> EmptyString
              /\ Heading.subtitle h <> EmptyString)
       /\ (exists rows : list Trend.t, trends !! id = Some rows /\ rows <> [])
       /\ Landing.accepts id = true)
    ["climate"; "energy"; "operations"]
  /\ dom DATA_PROFILES = list_to_set ["climate"; "energy"; "operations"]
  /\ dom titles = list_to_set ["climate"; "energy"; "operations"]
  /\ dom trends = list_to_set ["climate"; "energy"; "operations"].
Proof.
  split.
  - repeat (apply Forall_cons; split); [| | |constructor].
    + split; [exists climate|split; [exists climate_heading|split;
        [exists climate_trends|]]]; repeat split;
        solve [vm_compute; reflexivity | discriminate].
    + split; [exists energy|split; [exists energy_heading|split;
        [exists energy_trends|]]]; repeat split;
        solve [vm_compute; reflexivity | discriminate].
    + split; [exists operations|split; [exists operations_heading|split;
        [exists operations_trends|]]]; repeat split;
        solve [vm_compute; reflexivity | discriminate].
  - unfold DATA_PROFILES, titles, trends.
    rewrite !dom_list_to_map_L. repeat split.
Qed.

End Store.

(** ** Resolution of the topic and rendering *)

Section Resolution.
Import Js Page Dom Render Report.

(** C1, as stated, fails on an identifier that the store does not know:
    with [foo] stored, the active topic is [foo], not [climate], and the
    renderer returns with the page as it was, so no climate content is
    put on it. *)
Lemma invalid_selection_is_not_defaulted :
  "foo" <> EmptyString
  /\ DATA_PROFILES !! "foo" = None
  /\ activeTopic (Some "foo") = "foo"
  /\ activeTopic (Some "foo") <> "climate"
  /\ initGeneratePage (Fixture.page Fixture.reportIds (Some "foo"))
     = Returns tt (Fixture.page Fixture.reportIds (Some "foo"))
  /\ title (page_of
              (initGeneratePage (Fixture.page Fixture.reportIds (Some "foo"))))
     <> "Climate & Emissions — ESG Narrative Intelligence".
Proof.
  repeat split; try discriminate; vm_compute; solve [reflexivity | discriminate].
Qed.

(** C1, amended: without a stored selection the active topic is
    [climate], the renderer populates from the climate entries, the
    document title is the climate one, and with the regions that are read
    without a guard the renderer returns and leaves the rendered climate
    page; with a stored non-empty string that the profile store resolves
    to nothing, the active topic is that string and the renderer returns
    with the page unchanged. *)
Theorem selection_resolution (p : Page.t) :
  (sessionStorage p !! "esg_topic" = None ->
   activeTopic (sessionStorage p !! "esg_topic") = "climate"
   /\ initGeneratePage p
      = populate (Own climate) (Own climate_heading) (Own climate_trends) p
   /\ title (page_of (initGeneratePage p))
      = "Climate & Emissions — ESG Narrative Intelligence"
   /\ (unguarded_ok p ->
       initGeneratePage p
       = Returns tt (rendered climate climate_heading climate_trends p)))
  /\ (forall s : string,
        sessionStorage p !! "esg_topic" = Some s ->
        s <> EmptyString ->
        get DATA_PROFILES s = Undefined ->
        activeTopic (sessionStorage p !! "esg_topic") = s
        /\ initGeneratePage p = Returns tt p).
Proof.
  split.
  - intros Hnone.
    assert (Ht : activeTopic (sessionStorage p !! "esg_topic") = "climate")
      by now rewrite Hnone.
    pose proof (initGeneratePage_default p Ht) as Hrun.
    repeat split; [exact Ht | exact Hrun | |].
    + rewrite Hrun. apply populate_title.
    + intros Hok. rewrite Hrun. now apply populate_run.
  - intros s Hs Hne Hund.
    assert (Ht : activeTopic (sessionStorage p !! "esg_topic") = s).
    { rewrite Hs. unfold activeTopic, orElse.
      destruct (String.eqb_spec s EmptyString); [contradiction | reflexivity]. }
    split; [exact Ht|].
    apply initGeneratePage_unresolved. now rewrite Ht.
Qed.

(** The report page without a stored selection, and with the unknown
    identifier [solar]. *)
Lemma selection_resolution_witness :
  initGeneratePage (Fixture.page Fixture.reportIds None)
  = Returns tt
      (rendered climate climate_heading climate_trends
         (Fixture.page Fixture.reportIds None))
  /\ initGeneratePage (Fixture.page Fixture.reportIds (Some "solar"))
     = Returns tt (Fixture.page Fixture.reportIds (Some "solar")).
Proof.
  split.
  - apply (selection_resolution (Fixture.page Fixture.reportIds None)).
    + vm_compute; reflexivity.
    + repeat split; vm_compute; reflexivity.
  - apply (selection_resolution (Fixture.page Fixture.reportIds (Some "solar"))
             ) with (s := "solar").
    + vm_compute; reflexivity.
    + discriminate.
    + vm_compute; reflexivity.
Defined.

(** C2 fails on the code: 4e reads [reportTitle] and [reportSubtitle],
    and 4d reads [reportTypeTag], without a guard, and 4i writes the
    label only when the fill is there too.  On the report page without
    [reportTitle] the renderer throws a TypeError in 4e and the regions of
    4f to 4m stay empty, although they are all present; on the full page
    they are populated. *)
Theorem missing_title_region_stops_rendering :
  present "dataCardsGrid"
    (Fixture.page (Fixture.reportIdsWithout "reportTitle") None) = true
  /\ returned
       (initGeneratePage
          (Fixture.page (Fixture.reportIdsWithout "reportTitle") None))
     = false
  /\ map (fun id =>
            htmlOf id
              (page_of
                 (initGeneratePage
                    (Fixture.page (Fixture.reportIdsWithout "reportTitle")
                       None))))
       ["dataCardsGrid"; "narrativeBody"; "frameworkTags"; "trendContainer";
        "fwAlignContainer"]
     = [Some EmptyString; Some EmptyString; Some EmptyString;
        Some EmptyString; Some EmptyString]
  /\ htmlOf "dataCardsGrid"
       (page_of (initGeneratePage (Fixture.page Fixture.reportIds None)))
     = Some (dataCardsHtml (Profile.keyMetrics climate))
  /\ returned
       (initGeneratePage
          (Fixture.page (Fixture.reportIdsWithout "reportTypeTag") None))
     = false
  /\ returned
       (initGeneratePage
          (Fixture.page (Fixture.reportIdsWithout "reportSubtitle") None))
     = false
  /\ textOf "integrityLabel"
       (page_of
          (initGeneratePage
             (Fixture.page (Fixture.reportIdsWithout "integrityFill") None)))
     = Some EmptyString.
Proof. repeat split; vm_compute; reflexivity. Qed.

(** C3 fails on the code for the names that every object inherits from
    [Object.prototype]: [constructor] is no key of the profile store, yet
    the lookup yields a truthy value, the guard lets it through, and the
    renderer writes [undefined] into the page before it throws. *)
Theorem inherited_name_is_rendered :
  "constructor" <> EmptyString
  /\ DATA_PROFILES !! "constructor" = None
  /\ get DATA_PROFILES "constructor" = Inherited
  /\ returned
       (initGeneratePage
          (Fixture.page Fixture.reportIds (Some "constructor")))
     = false
  /\ title
       (page_of
          (initGeneratePage
             (Fixture.page Fixture.reportIds (Some "constructor"))))
     = "undefined — ESG Narrative Intelligence"
  /\ textOf "topicBadge"
       (page_of
          (initGeneratePage
             (Fixture.page Fixture.reportIds (Some "constructor"))))
     = Some "undefined undefined".
Proof. repeat split; try discriminate; vm_compute; reflexivity. Qed.

(** C8: without a stored selection the active topic is [climate] and
    the profile is the climate one; on a page with the regions of the
    title and of the integrity bar the renderer returns, the report title
    is the climate title and the integrity label shows the integer 98 of
    the profile as it is stored.  For any profile the label is the text
    [Narrative Integrity: ], the decimal digits of the stored integer and
    a percent sign. *)
Theorem default_topic_renders_climate (p : Page.t) :
  sessionStorage p !! "esg_topic" = None ->
  unguarded_ok p ->
  present "integrityFill" p = true ->
  present "integrityLabel" p = true ->
  activeTopic (sessionStorage p !! "esg_topic") = "climate"
  /\ get DATA_PROFILES "climate" = Own climate
  /\ returned (initGeneratePage p) = true
  /\ textOf "reportTitle" (page_of (initGeneratePage p))
     = Some "Climate Performance & Decarbonisation Progress: FY2024 Strategic Disclosure"
  /\ Profile.integrity climate = 98%Z
  /\ textOf "integrityLabel" (page_of (initGeneratePage p))
     = Some "Narrative Integrity: 98%"
  /\ (forall (d : Profile.t) (h : Heading.t) (rows : list Trend.t),
        textOf "integrityLabel"
          (page_of (populate (Own d) (Own h) (Own rows) p))
        = Some ("Narrative Integrity: "
                +:+ numberToString (Profile.integrity d) +:+ "%")).
Proof.
  intros Hnone Hok Hf Hl.
  assert (Ht : activeTopic (sessionStorage p !! "esg_topic") = "climate")
    by now rewrite Hnone.
  pose proof (initGeneratePage_default p Ht) as Hrun.
  rewrite Hrun, (populate_run _ _ _ _ Hok). simpl page_of. simpl returned.
  pose proof Hok as (_ & Htitle & _).
  split; [exact Ht|]. split; [apply climate_entries|].
  split; [reflexivity|]. split; [now rewrite rendered_reportTitle|].
  split; [reflexivity|]. split.
  - now rewrite rendered_integrityLabel.
  - intros d h rows. rewrite populate_run by exact Hok.
    simpl page_of. now rewrite rendered_integrityLabel.
Qed.

(** The report page with all its regions and no stored selection. *)
Lemma default_topic_renders_climate_witness :
  textOf "integrityLabel"
    (page_of (initGeneratePage (Fixture.page Fixture.reportIds None)))
  = Some "Narrative Integrity: 98%".
Proof.
  apply (default_topic_renders_climate (Fixture.page Fixture.reportIds None)).
  - vm_compute; reflexivity.
  - repeat split; vm_compute; reflexivity.
  - vm_compute; reflexivity.
  - vm_compute; reflexivity.
Defined.

(** C10: a stored empty string is falsy, so the active topic is
    [climate], as without a stored selection: the renderer does on the
    page what it does on the same page without the stored value, and the
    document title becomes the climate one.  The empty string is not
    looked up; the profile store would resolve it to nothing. *)
Theorem empty_selection_defaults (p : Page.t) :
  sessionStorage p !! "esg_topic" = Some EmptyString ->
  let q := withStorage (delete "esg_topic" (sessionStorage p)) p in
  sessionStorage q !! "esg_topic" = None
  /\ activeTopic (sessionStorage p !! "esg_topic") = "climate"
  /\ activeTopic (sessionStorage q !! "esg_topic") = "climate"
  /\ initGeneratePage p
     = onPage (withStorage (sessionStorage p)) (initGeneratePage q)
  /\ title (page_of (initGeneratePage p))
     = "Climate & Emissions — ESG Narrative Intelligence"
  /\ get DATA_PROFILES EmptyString = Undefined.
Proof.
  intros Hempty q.
  assert (Hq : sessionStorage q !! "esg_topic" = None)
    by apply lookup_delete_eq.
  assert (Htp : activeTopic (sessionStorage p !! "esg_topic") = "climate")
    by now rewrite Hempty.
  assert (Htq : activeTopic (sessionStorage q !! "esg_topic") = "climate")
    by now rewrite Hq.
  repeat split; try assumption.
  - rewrite (initGeneratePage_default p Htp), (initGeneratePage_default q Htq).
    unfold q. rewrite populate_storage_blind.
    pose proof (populate_sessionStorage (Own climate) (Own climate_heading)
                  (Own climate_trends) p) as Hkeep.
    destruct (populate _ _ _ p) as [[] p'|e p']; simpl in *;
      rewrite <- Hkeep; now destruct p'.
  - rewrite (initGeneratePage_default p Htp). apply populate_title.
Qed.

(** The report page with the empty string stored. *)
Lemma empty_selection_defaults_witness :
  title
    (page_of
       (initGeneratePage (Fixture.page Fixture.reportIds (Some EmptyString))))
  = "Climate & Emissions — ESG Narrative Intelligence".
Proof.
  apply (empty_selection_defaults
           (Fixture.page Fixture.reportIds (Some EmptyString))).
  vm_compute; reflexivity.
Defined.

End Resolution.

(** ** What the renderer leaves alone *)

Section Frame.
Import Js Page Dom Render Report.
Local Open Scope js_scope.

(** A lookup followed by code that is run with [null] or with the
    element. *)
Lemma preserves_lookup {A B : Type} (f : Page.t -> B) (id : string)
    (k : Ref -> M A) :
  preserves f (k None) -> preserves f (k (Some id)) ->
  preserves f (Page.bind (getElementById id) k).
Proof.
  intros Hn Hs p. unfold Page.bind, getElementById.
  destruct (elements p !! id); [apply Hs | apply Hn].
Qed.

Lemma preserves_assign_at {B : Type} (f : Page.t -> B) (ref : Ref)
    (g : Element -> Element) :
  (forall id p, ref = Some id -> f (update id g p) = f p) ->
  preserves f (assign ref g).
Proof.
  intros H. destruct ref as [id|]; intros p; [now apply H | reflexivity].
Qed.

(** An observation that no update of a report region, no timer and no
    title changes is the same after everything that follows
    [if (!data) return;], whether that returns or throws. *)
Lemma populate_frame {B : Type} (f : Page.t -> B)
    (data : Property Profile.t) (t : Property Heading.t)
    (rows : Property (list Trend.t)) :
  (forall v p, f (retitle v p) = f p) ->
  (forall tm p, f (addTimer tm p) = f p) ->
  (forall id g p, id ∈ Fixture.reportIds -> f (update id g p) = f p) ->
  preserves f (populate data t rows).
Proof.
  intros Htitle Htimer Hupd.
  unfold populate, step4a, step4b, step4c, step4d, step4e, step4f, step4g,
    step4h, step4i, step4j, step4k, step4l, step4m, setTextContent,
    setClassName, setInnerHTML, addClickListener, setTitle, schedule,
    getReportDate.
  repeat first
    [ apply preserves_lookup
    | apply preserves_bind; [|intros ?]
    | apply preserves_ret
    | apply preserves_defined
    | apply preserves_member
    | (intros p; reflexivity)
    | (intros p; apply Htitle)
    | (intros p; apply Htimer)
    | (apply preserves_assign_at; intros ? ? [= <-]; apply Hupd;
       unfold Fixture.reportIds; set_solver) ].
Qed.

(** The observation is the same after [initGeneratePage]. *)
Lemma initGeneratePage_frame {B : Type} (f : Page.t -> B) (p : Page.t) :
  (forall v p, f (retitle v p) = f p) ->
  (forall tm p, f (addTimer tm p) = f p) ->
  (forall id g p, id ∈ Fixture.reportIds -> f (update id g p) = f p) ->
  f (page_of (initGeneratePage p)) = f p.
Proof.
  intros Htitle Htimer Hupd. rewrite initGeneratePage_unfold. cbv zeta.
  destruct (negb _); [reflexivity|].
  now apply populate_frame.
Qed.

(** X1: [initGeneratePage] never writes the session storage: whatever is
    stored and whatever the page, and whether it returns or throws, the
    storage is afterwards what it was. *)
Theorem renderer_keeps_storage (p : Page.t) :
  sessionStorage (page_of (initGeneratePage p)) = sessionStorage p.
Proof. apply initGeneratePage_frame; reflexivity. Qed.

(** [initGeneratePage] creates no element, and on a page whose regions
    do not lie inside one another it removes none: an id is in the
    document afterwards exactly when it was before. *)
Lemma renderer_keeps_presence (p : Page.t) (id : string) :
  present id (page_of (initGeneratePage p)) = present id p.
Proof.
  apply (initGeneratePage_frame (present id)); try reflexivity.
  intros id' g q _. apply present_update.
Qed.

(** X2: [initGeneratePage] assigns to no element other than the fifteen
    whose ids it looks up: whether it returns or throws, what has been
    assigned to the text, the class, the markup and the listeners of any
    other id is what it was. *)
Theorem renderer_touches_report_regions_only (p : Page.t) (id : string) :
  id ∉ Fixture.reportIds ->
  elements (page_of (initGeneratePage p)) !! id = elements p !! id.
Proof.
  intros Hid.
  apply (initGeneratePage_frame (fun q => elements q !! id)); try reflexivity.
  intros id' g q Hin. unfold update; simpl.
  apply lookup_alter_ne. intros ->. contradiction.
Qed.

Lemma renderer_touches_report_regions_only_witness :
  elements
    (page_of
       (initGeneratePage
          (Fixture.page ("headerTimestamp" :: Fixture.reportIds) None)))
  !! "headerTimestamp"
  = elements (Fixture.page ("headerTimestamp" :: Fixture.reportIds) None)
    !! "headerTimestamp".
Proof.
  apply (renderer_touches_report_regions_only
           (Fixture.page ("headerTimestamp" :: Fixture.reportIds) None)
           "headerTimestamp").
  intros H. apply list_elem_of_In in H. simpl in H.
  intuition discriminate.
Defined.

End Frame.

(** ** When the renderer returns *)

Section Outcomes.
Import Js Page Dom Render Report.
Local Open Scope js_scope.

(** The three tables have the same keys. *)
Lemma tables_aligned (t : string) (d : Profile.t) :
  DATA_PROFILES !! t = Some d ->
  exists (h : Heading.t) (rows : list Trend.t),
    titles !! t = Some h /\ trends !! t = Some rows.
Proof.
  intros H. apply elem_of_dom_2 in H. unfold DATA_PROFILES in H.
  rewrite dom_list_to_map_L in H. simpl in H.
  rewrite !elem_of_union, !elem_of_singleton in H.
  destruct H as [->|[->|[->|H]]].
  - exists climate_heading, climate_trends. split; vm_compute; reflexivity.
  - exists energy_heading, energy_trends. split; vm_compute; reflexivity.
  - exists operations_heading, operations_trends.
    split; vm_compute; reflexivity.
  - now apply elem_of_empty in H.
Qed.

Lemma get_own {A : Type} (o : gmap string A) (k : string) (a : A) :
  o !! k = Some a -> get o k = Own a.
Proof. intros H. unfold get. now rewrite H. Qed.

(** The renderer on a topic that the store resolves to [d]. *)
Lemma initGeneratePage_own (p : Page.t) (d : Profile.t) :
  DATA_PROFILES !! activeTopic (sessionStorage p !! "esg_topic") = Some d ->
  exists (h : Heading.t) (rows : list Trend.t),
    titles !! activeTopic (sessionStorage p !! "esg_topic") = Some h
    /\ trends !! activeTopic (sessionStorage p !! "esg_topic") = Some rows
    /\ initGeneratePage p = populate (Own d) (Own h) (Own rows) p.
Proof.
  intros Hd. destruct (tables_aligned _ _ Hd) as (h & rows & Hh & Hr).
  exists h, rows. repeat split; try assumption.
  rewrite initGeneratePage_unfold. cbv zeta.
  now rewrite (get_own _ _ _ Hd), (get_own _ _ _ Hh), (get_own _ _ _ Hr).
Qed.

Lemma step4e_throws_subtitle (h : Heading.t) (p : Page.t) :
  present "reportTitle" p = true ->
  present "reportSubtitle" p = false ->
  step4e (Own h) p
  = Throws TypeError
      (update "reportTitle" (withText (Some (Heading.title h))) p).
Proof.
  intros E1 E2. unfold step4e.
  rewrite (bind_returns _ _ _ _ _ (getElementById_present _ _ E1)).
  cbv beta. erewrite bind_returns by reflexivity.
  erewrite bind_returns by reflexivity.
  erewrite bind_returns
    by (apply getElementById_absent; now rewrite present_update).
  reflexivity.
Qed.

(** Whether [populate] returns is decided by the three regions that are
    read without a guard. *)
Lemma populate_returned (d : Profile.t) (h : Heading.t)
    (rows : list Trend.t) (p : Page.t) :
  returned (populate (Own d) (Own h) (Own rows) p)
  = implb (present "reportHeader" p) (present "reportTypeTag" p)
    && present "reportTitle" p && present "reportSubtitle" p.
Proof.
  assert (Hdec : header_ok p \/
                 (present "reportHeader" p = true
                  /\ present "reportTypeTag" p = false)).
  { unfold header_ok. destruct (present "reportHeader" p);
      destruct (present "reportTypeTag" p); auto. }
  destruct Hdec as [Hok|[Eh Eg]].
  - assert (Himp : implb (present "reportHeader" p)
                     (present "reportTypeTag" p) = true).
    { unfold header_ok in Hok. destruct (present "reportHeader" p);
        [now rewrite Hok | reflexivity]. }
    rewrite Himp. simpl.
    destruct (present "reportTitle" p) eqn:Et.
    + destruct (present "reportSubtitle" p) eqn:Es.
      * now rewrite populate_run by (repeat split; assumption).
      * simpl. unfold populate.
        rewrite (bind_returns _ _ p p (today p)) by reflexivity. cbv beta.
        rewrite (bind_returns _ _ _ _ _ (step4a_run _ _)).
        rewrite (bind_returns _ _ _ _ _ (step4b_run _ _)).
        rewrite (bind_returns _ _ _ _ _ (step4c_run _ _)).
        erewrite bind_returns
          by (apply step4d_run; unfold header_ok;
              rewrite !present_update, !present_retitle; exact Hok).
        rewrite !present_update, !present_retitle.
        destruct (present "reportHeader" p);
          (erewrite bind_throws
             by (apply step4e_throws_subtitle;
                 rewrite !present_update, ?present_retitle;
                 first [exact Et | exact Es]));
          reflexivity.
    + simpl. now apply populate_without_title.
  - rewrite Eh, Eg. simpl. unfold populate.
    rewrite (bind_returns _ _ p p (today p)) by reflexivity. cbv beta.
    rewrite (bind_returns _ _ _ _ _ (step4a_run _ _)).
    rewrite (bind_returns _ _ _ _ _ (step4b_run _ _)).
    rewrite (bind_returns _ _ _ _ _ (step4c_run _ _)).
    erewrite bind_throws
      by (apply step4d_throws; rewrite !present_update, !present_retitle;
          first [exact Eh | exact Eg]).
    reflexivity.
Qed.

(** X3: on a page whose regions do not lie inside one another, so that
    no assignment of the renderer removes a region it looks up later:
    when the stored selection resolves to a profile of the store (or is
    absent or empty, which resolves to the climate profile), the renderer
    returns exactly when the three regions it reads without a guard are
    there: [reportTitle], [reportSubtitle], and [reportTypeTag] if
    [reportHeader] exists; otherwise it throws. *)
Theorem renderer_returns_iff_unguarded_regions (p : Page.t) (d : Profile.t) :
  DATA_PROFILES !! activeTopic (sessionStorage p !! "esg_topic") = Some d ->
  returned (initGeneratePage p) = true <-> unguarded_ok p.
Proof.
  intros Hd. destruct (initGeneratePage_own p d Hd) as (h & rows & _ & _ & ->).
  rewrite populate_returned. unfold unguarded_ok, header_ok.
  destruct (present "reportHeader" p); destruct (present "reportTypeTag" p);
    destruct (present "reportTitle" p); destruct (present "reportSubtitle" p);
    simpl; intuition discriminate.
Qed.

Lemma renderer_returns_iff_unguarded_regions_witness :
  returned
    (initGeneratePage (Fixture.page Fixture.reportIds (Some "energy")))
  = true
  <-> unguarded_ok (Fixture.page Fixture.reportIds (Some "energy")).
Proof.
  apply (renderer_returns_iff_unguarded_regions
           (Fixture.page Fixture.reportIds (Some "energy")) energy).
  vm_compute; reflexivity.
Defined.

(** X4: whenever the stored selection resolves to a profile of the
    store, the document title is the name of its topic followed by
    [ — ESG Narrative Intelligence] after the renderer has run, on every
    page and whether the renderer returns or throws: the title is written
    first and no later section writes it. *)
Theorem document_title_is_always_set (p : Page.t) (d : Profile.t) :
  DATA_PROFILES !! activeTopic (sessionStorage p !! "esg_topic") = Some d ->
  title (page_of (initGeneratePage p))
  = Profile.topic d +:+ " — ESG Narrative Intelligence".
Proof.
  intros Hd. destruct (initGeneratePage_own p d Hd) as (h & rows & _ & _ & ->).
  apply populate_title.
Qed.

Lemma document_title_is_always_set_witness :
  title
    (page_of (initGeneratePage (Fixture.page [] (Some "operations"))))
  = Profile.topic operations +:+ " — ESG Narrative Intelligence".
Proof.
  apply (document_title_is_always_set
           (Fixture.page [] (Some "operations")) operations).
  vm_compute; reflexivity.
Defined.

(** X5: a render that fails for want of [reportTitle] leaves a page that
    is populated in part: the document title is already that of the
    profile, while no region has received markup and no timer is
    queued. *)
Theorem failed_render_is_partial (p : Page.t) (d : Profile.t) :
  DATA_PROFILES !! activeTopic (sessionStorage p !! "esg_topic") = Some d ->
  header_ok p ->
  present "reportTitle" p = false ->
  returned (initGeneratePage p) = false
  /\ title (page_of (initGeneratePage p))
     = Profile.topic d +:+ " — ESG Narrative Intelligence"
  /\ (forall id, htmlOf id (page_of (initGeneratePage p)) = htmlOf id p)
  /\ timers (page_of (initGeneratePage p)) = timers p.
Proof.
  intros Hd Hok Ht.
  destruct (initGeneratePage_own p d Hd) as (h & rows & _ & _ & ->).
  unfold populate.
  rewrite (bind_returns _ _ p p (today p)) by reflexivity. cbv beta.
  rewrite (bind_returns _ _ _ _ _ (step4a_run _ _)).
  rewrite (bind_returns _ _ _ _ _ (step4b_run _ _)).
  rewrite (bind_returns _ _ _ _ _ (step4c_run _ _)).
  erewrite bind_returns
    by (apply step4d_run; unfold header_ok;
        rewrite !present_update, !present_retitle; exact Hok).
  rewrite !present_update, !present_retitle.
  destruct (present "reportHeader" p);
    (erewrite bind_throws
       by (apply step4e_throws_title;
           rewrite ?present_update, ?present_retitle; exact Ht));
    (repeat split; try reflexivity); intros id; simpl page_of;
    now rewrite !htmlOf_update_keep by (intros ?; reflexivity).
Qed.

Lemma failed_render_is_partial_witness :
  title
    (page_of
       (initGeneratePage
          (Fixture.page (Fixture.reportIdsWithout "reportTitle")
             (Some "operations"))))
  = Profile.topic operations +:+ " — ESG Narrative Intelligence".
Proof.
  apply (failed_render_is_partial
           (Fixture.page (Fixture.reportIdsWithout "reportTitle")
              (Some "operations")) operations).
  - vm_compute; reflexivity.
  - intros _. vm_compute; reflexivity.
  - vm_compute; reflexivity.
Defined.

End Outcomes.

(** ** What a successful render shows *)

Section Rendered.
Import Js Page Dom Render Report.
Local Open Scope js_scope.

(** The renderer on a topic that the store resolves, on a page with the
    regions that are read without a guard. *)
Lemma initGeneratePage_rendered (p : Page.t) (d : Profile.t) :
  DATA_PROFILES !! activeTopic (sessionStorage p !! "esg_topic") = Some d ->
  unguarded_ok p ->
  exists (h : Heading.t) (rows : list Trend.t),
    titles !! activeTopic (sessionStorage p !! "esg_topic") = Some h
    /\ trends !! activeTopic (sessionStorage p !! "esg_topic") = Some rows
    /\ initGeneratePage p = Returns tt (rendered d h rows p).
Proof.
  intros Hd Hok.
  destruct (initGeneratePage_own p d Hd) as (h & rows & Hh & Hr & ->).
  exists h, rows. repeat split; try assumption. now apply populate_run.
Qed.

Lemma classOf_update_ne (id id' : string) (f : Element -> Element)
    (p : Page.t) :
  id' <> id -> classOf id (update id' f p) = classOf id p.
Proof.
  intros H. unfold classOf, update; simpl. now rewrite lookup_alter_ne.
Qed.

Lemma classOf_update_keep (id id' : string) (f : Element -> Element)
    (p : Page.t) :
  (forall e, className (f e) = className e) ->
  classOf id (update id' f p) = classOf id p.
Proof.
  intros H. unfold classOf, update; simpl. rewrite lookup_alter.
  destruct (decide (id' = id)) as [->|_]; [|reflexivity].
  destruct (elements p !! id); simpl; [now rewrite H | reflexivity].
Qed.

Lemma classOf_update_withClass (id v : string) (p : Page.t) :
  classOf id (update id (withClass v) p) = (fun _ => v) <$> classOf id p.
Proof.
  unfold classOf, update; simpl. rewrite lookup_alter_eq.
  now destruct (elements p !! id).
Qed.

Lemma classOf_present (id : string) (p : Page.t) :
  present id p = true -> exists s, classOf id p = Some s.
Proof.
  unfold present, classOf. destruct (elements p !! id); [eauto | discriminate].
Qed.

Lemma classOf_absent (id : string) (p : Page.t) :
  present id p = false -> classOf id p = None.
Proof.
  unfold present, classOf. now destruct (elements p !! id).
Qed.

(** [observe] reads a region of a page that is given by its updates. *)
Ltac observe :=
  repeat first
    [ rewrite textOf_addTimer
    | rewrite textOf_retitle
    | rewrite textOf_update_ne by discriminate
    | rewrite textOf_update_keep by (intros ?; reflexivity)
    | rewrite textOf_update_withText
    | rewrite classOf_update_ne by discriminate
    | rewrite classOf_update_keep by (intros ?; reflexivity)
    | rewrite classOf_update_withClass
    | rewrite htmlOf_update_ne by discriminate
    | rewrite htmlOf_update_keep by (intros ?; reflexivity)
    | rewrite htmlOf_update_withHtml
    | progress change (classOf ?id (retitle ?v ?q)) with (classOf id q)
    | progress change (classOf ?id (addTimer ?t ?q)) with (classOf id q)
    | progress change (htmlOf ?id (retitle ?v ?q)) with (htmlOf id q)
    | progress change (htmlOf ?id (addTimer ?t ?q)) with (htmlOf id q) ].

(** The profiles of the store. *)
Lemma store_profiles (t : string) (d : Profile.t) :
  DATA_PROFILES !! t = Some d ->
  d = climate \/ d = energy \/ d = operations.
Proof.
  intros H. unfold DATA_PROFILES in H. apply elem_of_list_to_map_2 in H.
  apply list_elem_of_In in H. simpl in H.
  destruct H as [H|[H|[H|[]]]]; injection H as _ <-; tauto.
Qed.

(** The metrics of the profiles of the store have a pillar among E, S
    and G. *)
Lemma store_pillars (t : string) (d : Profile.t) :
  DATA_PROFILES !! t = Some d ->
  Forall (fun m => In (Metric.pillar m) ["E"; "S"; "G"])
    (Profile.keyMetrics d).
Proof.
  intros H. apply Forall_forall. intros m Hm. apply list_elem_of_In in Hm.
  destruct (store_profiles _ _ H) as [-> | [-> | ->]];
    simpl in Hm; repeat (destruct Hm as [<-|Hm]; [simpl; tauto|]);
    contradiction.
Qed.

(** X6: after a render that returns, the string assigned to the markup
    of each of the five markup regions that exists is the concatenation
    of what its own section generates from the entries of the topic, in
    their order, and no later section has assigned to the region again:
    one card per metric, the blocks of the narrative, one tag per
    framework, one row per trend, and one alignment row per framework
    with the status and the label of its index.  A region that is not
    there is skipped. *)
Theorem rendered_markup_regions (p : Page.t) (d : Profile.t) :
  DATA_PROFILES !! activeTopic (sessionStorage p !! "esg_topic") = Some d ->
  unguarded_ok p ->
  exists rows : list Trend.t,
    trends !! activeTopic (sessionStorage p !! "esg_topic") = Some rows
    /\ htmlOf "dataCardsGrid" (page_of (initGeneratePage p))
       = (fun _ =>
            String.concat EmptyString
              (map
                 (fun m : Metric.t =>
                  nl +:+ "      <div class=" +:+ dq +:+ "esg-data-card "
                  +:+ (if String.eqb (Metric.pillar m) "E" then "e"
                       else if String.eqb (Metric.pillar m) "S" then "s" else "g")
                  +:+ dq +:+ ">" +:+ nl +:+ "        <div class=" +:+ dq
                  +:+ "dc-pillar" +:+ dq +:+ ">● "
                  +:+ (if String.eqb (Metric.pillar m) "E" then "Environmental"
                       else if String.eqb (Metric.pillar m) "S" then "Social"
                       else "Governance")
                  +:+ "</div>" +:+ nl +:+ "        <div class=" +:+ dq +:+ "dc-value"
                  +:+ dq +:+ ">" +:+ Metric.value m +:+ "<span style=" +:+ dq
                  +:+ "font-size:14px;font-family:'Source Serif 4',serif;font-weight:300;"
                  +:+ dq +:+ ">" +:+ Metric.unit m +:+ "</span></div>" +:+ nl
                  +:+ "        <div class=" +:+ dq +:+ "dc-label" +:+ dq +:+ ">"
                  +:+ Metric.label m +:+ "</div>" +:+ nl +:+ "        <div class="
                  +:+ dq +:+ "dc-change " +:+ Metric.dir m +:+ dq +:+ ">"
                  +:+ (if String.eqb (Metric.dir m) "up" then "▲"
                       else if String.eqb (Metric.dir m) "down" then "▼" else "—")
                  +:+ " " +:+ Metric.change m +:+ "</div>" +:+ nl +:+ "      </div>"
                  +:+ nl +:+ "    ")
                 (Profile.keyMetrics d)))
         <$> htmlOf "dataCardsGrid" p
    /\ htmlOf "narrativeBody" (page_of (initGeneratePage p))
       = (fun _ =>
            String.concat EmptyString
              (map
                 (fun b : Block =>
                    match b with
                    | Para x => "<p>" +:+ x +:+ "</p>"
                    | PullQuote c q =>
                        nl +:+ "          <div class=" +:+ dq +:+ "pull-quote " +:+ c
                    +:+ dq +:+ ">" +:+ nl +:+ "            <p>" +:+ dq +:+ q
                    +:+ dq +:+ "</p>" +:+ nl +:+ "          </div>" +:+ nl
                    +:+ "        "
                    end)
                 (narrativeBlocks (Profile.colorClass d)
                    (Profile.pullQuote d) (Profile.paragraphs d))))
         <$> htmlOf "narrativeBody" p
    /\ htmlOf "frameworkTags" (page_of (initGeneratePage p))
       = (fun _ =>
            String.concat EmptyString
              (map
                 (fun f : string =>
                    "<span class=" +:+ dq +:+ "fw-tag" +:+ dq +:+ ">" +:+ f
                    +:+ "</span>")
                 (Profile.frameworks d)))
         <$> htmlOf "frameworkTags" p
    /\ htmlOf "trendContainer" (page_of (initGeneratePage p))
       = (fun _ =>
            String.concat EmptyString
              (map
                 (fun tr : Trend.t =>
                  nl +:+ "      <div class=" +:+ dq +:+ "trend-row" +:+ dq +:+ ">"
                  +:+ nl +:+ "        <span class=" +:+ dq +:+ "trend-name-small" +:+ dq
                  +:+ ">" +:+ Trend.name tr +:+ "</span>" +:+ nl
                  +:+ "        <span class=" +:+ dq +:+ "trend-score" +:+ dq +:+ ">"
                  +:+ Trend.score tr +:+ "</span>" +:+ nl +:+ "      </div>" +:+ nl
                  +:+ "    ")
                 rows))
         <$> htmlOf "trendContainer" p
    /\ htmlOf "fwAlignContainer" (page_of (initGeneratePage p))
       = (fun _ =>
            String.concat EmptyString
              (imap
                 (fun (i : nat) (f : string) =>
                    nl +:+ "      <div class=" +:+ dq +:+ "fw-align-row" +:+ dq
                    +:+ ">" +:+ nl +:+ "        <span class=" +:+ dq
                    +:+ "fw-name" +:+ dq +:+ ">" +:+ f +:+ "</span>" +:+ nl
                    +:+ "        <span class=" +:+ dq +:+ "fw-status "
                    +:+ (if (i <? 3)%nat then "ready"
                         else if (i =? 3)%nat then "partial" else "pending")
                    +:+ dq +:+ ">"
                    +:+ (if (i <? 3)%nat then "✓ Ready"
                         else if (i =? 3)%nat then "◑ Partial"
                         else "○ Pending")
                    +:+ "</span>" +:+ nl +:+ "      </div>" +:+ nl +:+ "    ")
                 (Profile.frameworks d)))
         <$> htmlOf "fwAlignContainer" p
    /\ dq = String "034"%char EmptyString
    /\ nl = String "010"%char EmptyString.
Proof.
  intros Hd Hok.
  assert (Hold :
    exists rows : list Trend.t,
      trends !! activeTopic (sessionStorage p !! "esg_topic") = Some rows
      /\ htmlOf "dataCardsGrid" (page_of (initGeneratePage p))
         = (fun _ => dataCardsHtml (Profile.keyMetrics d))
           <$> htmlOf "dataCardsGrid" p
      /\ htmlOf "narrativeBody" (page_of (initGeneratePage p))
         = (fun _ => narrativeHtml (Profile.colorClass d)
                       (Profile.pullQuote d) (Profile.paragraphs d))
           <$> htmlOf "narrativeBody" p
      /\ htmlOf "frameworkTags" (page_of (initGeneratePage p))
         = (fun _ => frameworkTagsHtml (Profile.frameworks d))
           <$> htmlOf "frameworkTags" p
      /\ htmlOf "trendContainer" (page_of (initGeneratePage p))
         = (fun _ => trendsHtml rows) <$> htmlOf "trendContainer" p
      /\ htmlOf "fwAlignContainer" (page_of (initGeneratePage p))
         = (fun _ => fwAlignHtml (Profile.frameworks d))
           <$> htmlOf "fwAlignContainer" p).
  { destruct (initGeneratePage_rendered p d Hd Hok)
      as (h & rows & _ & Hr & ->).
    exists rows. split; [exact Hr|]. simpl page_of. unfold rendered.
    cbv zeta.
    destruct (present "integrityFill" p && present "integrityLabel" p);
      destruct (present "reportHeader" p);
      repeat split; observe; reflexivity. }
  destruct Hold as (rows & Hr & H1 & H2 & H3 & H4 & H5).
  exists rows. split; [exact Hr|].
  rewrite H1, H2, H3, H4, H5. clear H1 H2 H3 H4 H5.
  split; [|split; [|split; [|split; [|split; [|split; reflexivity]]]]].
  - apply (f_equal (fun s : string =>
                      (fun _ : string => s) <$> htmlOf "dataCardsGrid" p)).
    unfold dataCardsHtml.
    now rewrite join_concat, (dataCards_literal _ (store_pillars _ _ Hd)).
  - apply (f_equal (fun s : string =>
                      (fun _ : string => s) <$> htmlOf "narrativeBody" p)).
    rewrite narrativeHtml_blocks, join_concat. reflexivity.
  - apply (f_equal (fun s : string =>
                      (fun _ : string => s) <$> htmlOf "frameworkTags" p)).
    unfold frameworkTagsHtml. rewrite join_concat. reflexivity.
  - apply (f_equal (fun s : string =>
                      (fun _ : string => s) <$> htmlOf "trendContainer" p)).
    unfold trendsHtml. rewrite join_concat. reflexivity.
  - apply (f_equal (fun s : string =>
                      (fun _ : string => s) <$> htmlOf "fwAlignContainer" p)).
    unfold fwAlignHtml, fwStatus.
    rewrite join_concat. change map with (@fmap list _).
    rewrite fmap_imap. reflexivity.
Qed.

Lemma rendered_markup_regions_witness :
  exists rows : list Trend.t,
    trends !! "energy" = Some rows
    /\ htmlOf "trendContainer"
         (page_of
            (initGeneratePage
               (Fixture.page Fixture.reportIds (Some "energy"))))
       = Some
           (String.concat EmptyString
              (map
                 (fun tr : Trend.t =>
                  nl +:+ "      <div class=" +:+ dq +:+ "trend-row" +:+ dq +:+ ">"
                  +:+ nl +:+ "        <span class=" +:+ dq +:+ "trend-name-small" +:+ dq
                  +:+ ">" +:+ Trend.name tr +:+ "</span>" +:+ nl
                  +:+ "        <span class=" +:+ dq +:+ "trend-score" +:+ dq +:+ ">"
                  +:+ Trend.score tr +:+ "</span>" +:+ nl +:+ "      </div>" +:+ nl
                  +:+ "    ")
                 rows)).
Proof.
  destruct (rendered_markup_regions
              (Fixture.page Fixture.reportIds (Some "energy")) energy)
    as (rows & Hr & _ & _ & _ & Ht & _).
  - vm_compute; reflexivity.
  - repeat split; vm_compute; reflexivity.
  - exists rows. split; [exact Hr | exact Ht].
Defined.

(** X7: after a render that returns, the badge, the header and the
    header tag carry the colour class of the profile, and the text
    regions hold the icon and name of the topic, the date, the subtitle
    and the audience; the header tag is styled only when the header
    exists, and is left as it was otherwise. *)
Theorem rendered_text_regions (p : Page.t) (d : Profile.t) :
  DATA_PROFILES !! activeTopic (sessionStorage p !! "esg_topic") = Some d ->
  unguarded_ok p ->
  exists h : Heading.t,
    titles !! activeTopic (sessionStorage p !! "esg_topic") = Some h
    /\ textOf "topicBadge" (page_of (initGeneratePage p))
       = (fun _ => Profile.icon d +:+ " " +:+ Profile.topic d)
         <$> textOf "topicBadge" p
    /\ classOf "topicBadge" (page_of (initGeneratePage p))
       = (fun _ => "gen-topic-badge " +:+ Profile.colorClass d)
         <$> classOf "topicBadge" p
    /\ textOf "reportDate" (page_of (initGeneratePage p))
       = (fun _ => today p) <$> textOf "reportDate" p
    /\ classOf "reportHeader" (page_of (initGeneratePage p))
       = (fun _ => "report-header " +:+ Profile.colorClass d)
         <$> classOf "reportHeader" p
    /\ (if present "reportHeader" p
        then classOf "reportTypeTag" (page_of (initGeneratePage p))
             = Some ("report-type-tag " +:+ Profile.colorClass d)
             /\ textOf "reportTypeTag" (page_of (initGeneratePage p))
                = Some (Profile.icon d +:+ "  " +:+ Profile.topic d
                        +:+ " Narrative")
        else elements (page_of (initGeneratePage p)) !! "reportTypeTag"
             = elements p !! "reportTypeTag")
    /\ textOf "reportSubtitle" (page_of (initGeneratePage p))
       = Some (Heading.subtitle h)
    /\ textOf "audienceLabel" (page_of (initGeneratePage p))
       = (fun _ => Profile.audience d) <$> textOf "audienceLabel" p.
Proof.
  intros Hd Hok.
  destruct (initGeneratePage_rendered p d Hd Hok) as (h & rows & Hh & _ & ->).
  exists h. split; [exact Hh|]. simpl page_of. unfold rendered. cbv zeta.
  destruct Hok as (Hhdr & Ht & Hs). unfold header_ok in Hhdr.
  destruct (textOf_present _ _ Hs) as [sub Hsub].
  assert (Hne : forall id' g q,
             id' <> "reportTypeTag" ->
             elements (update id' g q) !! "reportTypeTag"
             = elements q !! "reportTypeTag").
  { intros id' g q H. unfold update. cbn [elements].
    now apply lookup_alter_ne. }
  destruct (present "integrityFill" p && present "integrityLabel" p);
    destruct (present "reportHeader" p) eqn:Eh;
    (split; [observe; reflexivity|]);
    (split; [observe; reflexivity|]);
    (split; [observe; reflexivity|]);
    (split; [observe; rewrite ?(classOf_absent _ _ Eh); reflexivity|]);
    (split; [|split; [observe; now rewrite Hsub | observe; reflexivity]]).
  - split; observe.
    + now destruct (classOf_present _ _ (Hhdr eq_refl)) as [c ->].
    + now destruct (textOf_present _ _ (Hhdr eq_refl)) as [c ->].
  - repeat first
      [ rewrite Hne by discriminate
      | progress change (elements (addTimer ?t ?q)) with (elements q)
      | progress change (elements (retitle ?v ?q)) with (elements q) ].
    reflexivity.
  - split; observe.
    + now destruct (classOf_present _ _ (Hhdr eq_refl)) as [c ->].
    + now destruct (textOf_present _ _ (Hhdr eq_refl)) as [c ->].
  - repeat first
      [ rewrite Hne by discriminate
      | progress change (elements (addTimer ?t ?q)) with (elements q)
      | progress change (elements (retitle ?v ?q)) with (elements q) ].
    reflexivity.
Qed.

Lemma rendered_text_regions_witness :
  exists h : Heading.t,
    titles !! "operations" = Some h
    /\ textOf "reportSubtitle"
         (page_of
            (initGeneratePage
               (Fixture.page Fixture.reportIds (Some "operations"))))
       = Some (Heading.subtitle h).
Proof.
  destruct (rendered_text_regions
              (Fixture.page Fixture.reportIds (Some "operations")) operations)
    as (h & Hh & _ & _ & _ & _ & _ & Hs & _).
  - vm_compute; reflexivity.
  - repeat split; vm_compute; reflexivity.
  - exists h. split; [exact Hh | exact Hs].
Defined.

(** X8: the integrity bar is never filled by the renderer itself.  When
    both the fill and the label exist, the label gets its text and one
    animation-frame callback is queued that sets, 300 ms later, the width
    of the fill to the same number; when either is missing, the label is
    left as it was and nothing is queued. *)
Theorem integrity_bar_is_deferred (p : Page.t) (d : Profile.t) :
  DATA_PROFILES !! activeTopic (sessionStorage p !! "esg_topic") = Some d ->
  unguarded_ok p ->
  let n := numberToString (Profile.integrity d) in
  if present "integrityFill" p && present "integrityLabel" p
  then textOf "integrityLabel" (page_of (initGeneratePage p))
       = Some ("Narrative Integrity: " +:+ n +:+ "%")
       /\ timers (page_of (initGeneratePage p))
          = (timers p
             ++ [AnimationFrame
                   (SetTimeout (SetStyleWidth "integrityFill" (n +:+ "%"))
                      300)])%list
  else textOf "integrityLabel" (page_of (initGeneratePage p))
       = textOf "integrityLabel" p
       /\ timers (page_of (initGeneratePage p)) = timers p.
Proof.
  intros Hd Hok n.
  destruct (initGeneratePage_rendered p d Hd Hok) as (h & rows & _ & _ & ->).
  simpl page_of. unfold rendered. cbv zeta.
  destruct (present "integrityFill" p) eqn:Ef;
    destruct (present "integrityLabel" p) eqn:El; simpl andb; cbv iota;
    destruct (present "reportHeader" p);
    (split; [|reflexivity]); observe;
    try (destruct (textOf_present _ _ El) as [s ->]); reflexivity.
Qed.

Lemma integrity_bar_is_deferred_witness :
  let p := Fixture.page (Fixture.reportIdsWithout "integrityFill")
             (Some "energy") in
  let n := numberToString (Profile.integrity energy) in
  if present "integrityFill" p && present "integrityLabel" p
  then textOf "integrityLabel" (page_of (initGeneratePage p))
       = Some ("Narrative Integrity: " +:+ n +:+ "%")
       /\ timers (page_of (initGeneratePage p))
          = (timers p
             ++ [AnimationFrame
                   (SetTimeout (SetStyleWidth "integrityFill" (n +:+ "%"))
                      300)])%list
  else textOf "integrityLabel" (page_of (initGeneratePage p))
       = textOf "integrityLabel" p
       /\ timers (page_of (initGeneratePage p)) = timers p.
Proof.
  intros p.
  apply (integrity_bar_is_deferred p energy).
  - vm_compute; reflexivity.
  - repeat split; vm_compute; reflexivity.
Defined.

(** X9: a render that returns adds one click listener that prints the
    window to the export button, after the listeners the button already
    has, and adds no listener to any other element. *)
Theorem export_listener_is_appended (p : Page.t) (d : Profile.t)
    (id : string) :
  DATA_PROFILES !! activeTopic (sessionStorage p !! "esg_topic") = Some d ->
  unguarded_ok p ->
  clickListeners <$> elements (page_of (initGeneratePage p)) !! id
  = (fun e =>
       if String.eqb id "exportBtn"
       then (clickListeners e ++ [PrintPage])%list
       else clickListeners e)
    <$> elements p !! id.
Proof.
  intros Hd Hok.
  destruct (initGeneratePage_rendered p d Hd Hok) as (h & rows & _ & _ & ->).
  simpl page_of. unfold rendered. cbv zeta.
  assert (Hkeep : forall (F : Element -> list Callback) id' g q,
             (forall e, F (g e) = F e) ->
             F <$> elements (update id' g q) !! id = F <$> elements q !! id).
  { intros F id' g q Hg. unfold update. cbn [elements].
    rewrite lookup_alter.
    destruct (decide (id' = id)) as [->|_]; [|reflexivity].
    destruct (elements q !! id); simpl; [now rewrite Hg | reflexivity]. }
  assert (Hlast : forall q,
             clickListeners
             <$> elements (update "exportBtn" (withListener PrintPage) q) !! id
             = (fun e =>
                  if String.eqb id "exportBtn"
                  then (clickListeners e ++ [PrintPage])%list
                  else clickListeners e)
               <$> elements q !! id).
  { intros q. unfold update. cbn [elements]. rewrite lookup_alter.
    destruct (String.eqb_spec id "exportBtn") as [->|Hne].
    - rewrite decide_True by reflexivity. now destruct (elements q !! _).
    - rewrite decide_False by congruence. now destruct (elements q !! id). }
  rewrite Hlast.
  destruct (present "integrityFill" p && present "integrityLabel" p);
    destruct (present "reportHeader" p);
    repeat first
      [ rewrite Hkeep by (intros ?; reflexivity)
      | progress change (elements (addTimer ?t ?q)) with (elements q)
      | progress change (elements (retitle ?v ?q)) with (elements q) ];
    reflexivity.
Qed.

Lemma export_listener_is_appended_witness :
  clickListeners
  <$> elements
        (page_of
           (initGeneratePage (Fixture.page Fixture.reportIds (Some "climate"))))
      !! "exportBtn"
  = Some [PrintPage].
Proof.
  apply (export_listener_is_appended
           (Fixture.page Fixture.reportIds (Some "climate")) climate
           "exportBtn").
  - vm_compute; reflexivity.
  - repeat split; vm_compute; reflexivity.
Defined.

End Rendered.

(** ** The landing controller *)

Section Activation.
Import Js Page Dom Render Report Landing.
Local Open Scope js_scope.

(** The click listener in closed form. *)
Lemma themeCardClick_run (topic : string) (p : Page.t) :
  themeCardClick topic p
  = Returns tt
      (if accepts topic
       then addTimer (AfterDelay (Navigate "generate.html") 1100)
              (withStorage (<["esg_topic" := topic]> (sessionStorage p))
                 (update "loadingOverlay"
                    (fun e =>
                       withClass
                         (unwords (dedup [] (tokens (className e)
                                             ++ ["visible"]))) e)
                    p))
       else p).
Proof.
  unfold themeCardClick, accepts. destruct (truthy _); [|reflexivity].
  change (negb true) with false. cbv iota.
  destruct (present "loadingOverlay" p) eqn:E.
  - rewrite (bind_returns _ _ _ _ _ (getElementById_present _ _ E)).
    reflexivity.
  - rewrite (bind_returns _ _ _ _ _ (getElementById_absent _ _ E)).
    now rewrite update_absent.
Qed.

(** X10: the click listener of a theme card never throws, with or
    without the loading overlay.  It stores the topic under [esg_topic]
    and queues one navigation to the report page after 1100 ms exactly
    when the lookup of the topic in the profile store is truthy; otherwise
    storage and timers are as they were.  It never changes the document
    title nor any element other than the overlay. *)
Theorem click_stores_and_navigates (topic : string) (p : Page.t) :
  returned (themeCardClick topic p) = true
  /\ sessionStorage (page_of (themeCardClick topic p))
     = (if accepts topic then <["esg_topic" := topic]> (sessionStorage p)
        else sessionStorage p)
  /\ timers (page_of (themeCardClick topic p))
     = (timers p
        ++ (if accepts topic
            then [AfterDelay (Navigate "generate.html") 1100] else []))%list
  /\ title (page_of (themeCardClick topic p)) = title p
  /\ (forall id, id <> "loadingOverlay" ->
        elements (page_of (themeCardClick topic p)) !! id
        = elements p !! id).
Proof.
  rewrite themeCardClick_run. cbn [returned page_of].
  destruct (accepts topic).
  - repeat split; try reflexivity.
    intros id Hid. unfold addTimer, withStorage, update. cbn [elements].
    now rewrite lookup_alter_ne by congruence.
  - repeat split; try reflexivity. now rewrite app_nil_r.
Qed.

(** X11: what the landing page stores is what the report page renders.
    For a topic that is a key of the profile store, after the card was
    activated by a click or by the Enter or Space key, the renderer on any
    page with that session storage resolves this topic and populates from
    its entries in the three tables; with the regions that are read
    without a guard it returns with the page rendered from them. *)
Theorem landing_report_round_trip (topic : string) (d : Profile.t)
    (activate : M unit) (p q : Page.t) :
  DATA_PROFILES !! topic = Some d ->
  activate = themeCardClick topic
  \/ activate = themeCardKeydown "Enter" topic
  \/ activate = themeCardKeydown " " topic ->
  sessionStorage q = sessionStorage (page_of (activate p)) ->
  activeTopic (sessionStorage q !! "esg_topic") = topic
  /\ exists (h : Heading.t) (rows : list Trend.t),
       titles !! topic = Some h
       /\ trends !! topic = Some rows
       /\ initGeneratePage q = populate (Own d) (Own h) (Own rows) q
       /\ (unguarded_ok q ->
           initGeneratePage q = Returns tt (rendered d h rows q)).
Proof.
  intros Hd Hact Hq.
  assert (Hrun : activate p = themeCardClick topic p)
    by (destruct Hact as [->|[->| ->]]; reflexivity).
  assert (Hacc : accepts topic = true)
    by (unfold accepts; now rewrite (get_own _ _ _ Hd)).
  assert (Hne : topic <> EmptyString)
    by (intros ->; vm_compute in Hd; discriminate).
  assert (Ht : activeTopic (sessionStorage q !! "esg_topic") = topic).
  { rewrite Hq, Hrun.
    destruct (click_stores_and_navigates topic p) as (_ & -> & _).
    rewrite Hacc, lookup_insert_eq. unfold activeTopic, orElse.
    destruct (String.eqb_spec topic EmptyString); [contradiction|reflexivity]. }
  split; [exact Ht|].
  rewrite <- Ht in Hd.
  destruct (initGeneratePage_own q d Hd) as (h & rows & Hh & Hr & Hpop).
  rewrite Ht in Hh, Hr. exists h, rows. repeat split; try assumption.
  intros Hok. rewrite Hpop. now apply populate_run.
Qed.

Lemma landing_report_round_trip_witness :
  activeTopic
    (sessionStorage
       (withStorage
          (sessionStorage
             (page_of
                (themeCardKeydown "Enter" "energy"
                   (Fixture.page ["loadingOverlay"] None))))
          (Fixture.page Fixture.reportIds None))
     !! "esg_topic")
  = "energy".
Proof.
  apply (landing_report_round_trip "energy" energy
           (themeCardKeydown "Enter" "energy")
           (Fixture.page ["loadingOverlay"] None)).
  - vm_compute; reflexivity.
  - right; left; reflexivity.
  - reflexivity.
Defined.

(** X12: the names that every object inherits from [Object.prototype]
    pass the check of the landing controller, are stored like a topic,
    and make the renderer write the document title
    [undefined — ESG Narrative Intelligence] on every page. *)
Theorem inherited_names_flow_through (s : string) (p q : Page.t) :
  In s objectPrototypeNames ->
  DATA_PROFILES !! s = None
  /\ accepts s = true
  /\ sessionStorage (page_of (themeCardClick s p)) !! "esg_topic" = Some s
  /\ (sessionStorage q !! "esg_topic" = Some s ->
      title (page_of (initGeneratePage q))
      = "undefined — ESG Narrative Intelligence").
Proof.
  intros Hin.
  assert (Hget : get DATA_PROFILES s = Inherited /\ s <> EmptyString).
  { simpl in Hin.
    repeat (destruct Hin as [<-|Hin];
            [split; [vm_compute; reflexivity | discriminate]|]).
    contradiction. }
  destruct Hget as (Hget & Hne).
  assert (Hacc : accepts s = true) by (unfold accepts; now rewrite Hget).
  split.
  { unfold get in Hget. destruct (DATA_PROFILES !! s); [discriminate|].
    reflexivity. }
  split; [exact Hacc|]. split.
  - destruct (click_stores_and_navigates s p) as (_ & -> & _).
    now rewrite Hacc, lookup_insert_eq.
  - intros Hq. rewrite initGeneratePage_unfold. cbv zeta. rewrite Hq.
    unfold activeTopic, orElse.
    destruct (String.eqb_spec s EmptyString); [contradiction|].
    rewrite Hget. simpl negb. cbv iota. apply populate_title.
Qed.

Lemma inherited_names_flow_through_witness :
  title
    (page_of (initGeneratePage (Fixture.page Fixture.reportIds
                                  (Some "toString"))))
  = "undefined — ESG Narrative Intelligence".
Proof.
  apply (inherited_names_flow_through "toString"
           (Fixture.page [] None)
           (Fixture.page Fixture.reportIds (Some "toString"))).
  - simpl. tauto.
  - vm_compute; reflexivity.
Defined.

(** C9 fails on the code: the check of the landing controller is the
    lookup [DATA_PROFILES[topic]], which also finds the members of
    [Object.prototype].  A theme card whose topic is [constructor] is
    accepted, stored and navigated from, although it is none of the three
    supported identifiers and none of the three tables has an entry for
    it.  The identifiers that the controller accepts are the three keys of
    the store and the twelve inherited names. *)
Theorem landing_accepts_beyond_the_store :
  accepts "constructor" = true
  /\ ~ In "constructor" ["climate"; "energy"; "operations"]
  /\ DATA_PROFILES !! "constructor" = None
  /\ titles !! "constructor" = None
  /\ trends !! "constructor" = None
  /\ (forall p : Page.t,
        returned (themeCardClick "constructor" p) = true
        /\ sessionStorage (page_of (themeCardClick "constructor" p))
             !! "esg_topic"
           = Some "constructor"
        /\ timers (page_of (themeCardClick "constructor" p))
           = (timers p ++ [AfterDelay (Navigate "generate.html") 1100])%list)
  /\ (forall id : string,
        accepts id = true
        <-> In id ["climate"; "energy"; "operations"]
            \/ In id objectPrototypeNames).
Proof.
  assert (Hacc : accepts "constructor" = true) by (vm_compute; reflexivity).
  split; [exact Hacc|].
  split; [simpl; intuition discriminate|].
  split; [vm_compute; reflexivity|].
  split; [vm_compute; reflexivity|].
  split; [vm_compute; reflexivity|].
  split.
  { intros p. rewrite themeCardClick_run, Hacc. cbn [returned page_of].
    split; [reflexivity|]. split; [|reflexivity].
    unfold addTimer, withStorage. cbn [sessionStorage].
    apply lookup_insert_eq. }
  intros id. unfold accepts, get.
  destruct supported_topics_have_entries as (_ & Hdom & _).
  destruct (DATA_PROFILES !! id) as [d|] eqn:E.
  - cbn [truthy]. split; [intros _; left|reflexivity].
    apply list_elem_of_In.
    apply (elem_of_list_to_set (C := gset string)).
    rewrite <- Hdom. apply elem_of_dom. now exists d.
  - assert (Hout : ~ In id ["climate"; "energy"; "operations"]).
    { intros Hin. apply list_elem_of_In in Hin.
      apply (elem_of_list_to_set (C := gset string)) in Hin.
      rewrite <- Hdom in Hin. apply elem_of_dom in Hin.
      rewrite E in Hin. destruct Hin; discriminate. }
    unfold inPrototype.
    destruct (existsb (String.eqb id) objectPrototypeNames) eqn:X;
      cbn [truthy].
    + split; [intros _; right|reflexivity].
      apply existsb_exists in X as (x & Hx & Heq).
      apply String.eqb_eq in Heq. now subst x.
    + split; [discriminate|]. intros [Hin|Hin]; [contradiction|].
      assert (Y : existsb (String.eqb id) objectPrototypeNames = true).
      { apply existsb_exists. exists id.
        split; [exact Hin | apply String.eqb_refl]. }
      congruence.
Qed.

End Activation.

(** ** The class list of the loading overlay *)

Section ClassList.
Import Js Page Dom Render Report Landing Tokens.
Local Open Scope js_scope.

Lemma isSpace_space : isSpace " "%char = true.
Proof. reflexivity. Qed.

Lemma tokensFrom_nil (cur : string) :
  tokensFrom cur EmptyString
  = if String.eqb cur EmptyString then [] else [cur].
Proof. reflexivity. Qed.

Lemma tokensFrom_cons (cur : string) (c : ascii) (s : string) :
  tokensFrom cur (String c s)
  = if isSpace c
    then ((if String.eqb cur EmptyString then [] else [cur])
          ++ tokensFrom EmptyString s)%list
    else tokensFrom (cur +:+ String c EmptyString) s.
Proof. reflexivity. Qed.

(** A run without white space is taken into the current token. *)
Lemma tokensFrom_app (x : string) :
  spaceFree x = true ->
  forall cur s, tokensFrom cur (x +:+ s) = tokensFrom (cur +:+ x) s.
Proof.
  induction x as [|c x IH]; intros Hx cur s.
  - now rewrite append_empty_r.
  - simpl in Hx. apply andb_prop in Hx as [Hc Hx].
    apply negb_true_iff in Hc.
    rewrite append_cons, tokensFrom_cons, Hc, (IH Hx).
    now rewrite append_assoc.
Qed.

Lemma spaceFree_app (a b : string) :
  spaceFree (a +:+ b) = spaceFree a && spaceFree b.
Proof.
  induction a as [|c a IH]; [reflexivity|].
  rewrite append_cons. simpl. now rewrite IH, andb_assoc.
Qed.

(** The tokens of a string are tokens. *)
Lemma tokensFrom_isToken (s : string) :
  forall cur, spaceFree cur = true ->
    Forall (fun t => isToken t = true) (tokensFrom cur s).
Proof.
  assert (Hflush : forall cur, spaceFree cur = true ->
            Forall (fun t => isToken t = true)
              (if String.eqb cur EmptyString then [] else [cur])).
  { intros cur Hcur. destruct (String.eqb cur EmptyString) eqn:E;
      constructor; [|constructor]. unfold isToken. now rewrite E, Hcur. }
  induction s as [|c s IH]; intros cur Hcur.
  - rewrite tokensFrom_nil. now apply Hflush.
  - rewrite tokensFrom_cons. destruct (isSpace c) eqn:Ec.
    + apply Forall_app. split; [now apply Hflush | now apply IH].
    + apply IH. rewrite spaceFree_app, Hcur. simpl. now rewrite Ec.
Qed.

(** Splitting the tokens joined by single spaces gives them back. *)
Lemma tokens_unwords (l : list string) :
  Forall (fun t => isToken t = true) l -> tokens (unwords l) = l.
Proof.
  induction l as [|x l IH]; intros Hl; [reflexivity|].
  apply Forall_cons in Hl as [Hx Hl]. unfold isToken in Hx.
  apply andb_prop in Hx as [Hne Hx]. apply negb_true_iff in Hne.
  unfold tokens in *. destruct l as [|y l].
  - simpl unwords. rewrite <- (append_empty_r x) at 1.
    rewrite (tokensFrom_app x Hx), tokensFrom_nil.
    change (EmptyString +:+ x) with x. now rewrite Hne.
  - change (unwords (x :: y :: l)) with (x +:+ " " +:+ unwords (y :: l)).
    rewrite (tokensFrom_app x Hx).
    change (" " +:+ unwords (y :: l)) with (String " " (unwords (y :: l))).
    rewrite tokensFrom_cons, isSpace_space.
    change (EmptyString +:+ x) with x.
    rewrite Hne, (IH Hl). reflexivity.
Qed.

Lemma dedup_Forall (P : string -> Prop) (xs : list string) :
  forall seen, Forall P xs -> Forall P (dedup seen xs).
Proof.
  induction xs as [|x xs IH]; intros seen H; simpl; [constructor|].
  apply Forall_cons in H as [Hx H].
  destruct (existsb _ seen); [now apply IH|].
  constructor; [exact Hx | now apply IH].
Qed.

Lemma In_dedup (y : string) (xs : list string) :
  forall seen,
    In y (dedup seen xs)
    <-> In y xs /\ existsb (String.eqb y) seen = false.
Proof.
  induction xs as [|x xs IH]; intros seen; simpl; [tauto|].
  destruct (existsb (String.eqb x) seen) eqn:E.
  - rewrite IH. split; [tauto|]. intros [[<-|H] Hs]; [congruence | tauto].
  - simpl. rewrite IH. simpl.
    destruct (String.eqb_spec y x) as [->|Hne]; simpl.
    + split; [tauto|]. intros _. now left.
    + split; [intros [->|H]; [contradiction | tauto]|].
      intros [[->|H] Hs]; [contradiction | tauto].
Qed.

Lemma dedup_seen (ys : list string) (seen : list string) :
  (forall y, In y ys -> existsb (String.eqb y) seen = true) ->
  dedup seen ys = [].
Proof.
  induction ys as [|y ys IH]; intros H; simpl; [reflexivity|].
  rewrite (H y) by now left. apply IH. intros z Hz. apply H. now right.
Qed.

(** Adding what is already there changes nothing. *)
Lemma dedup_absorb (xs : list string) :
  forall seen ys,
    (forall y, In y ys -> existsb (String.eqb y) (seen ++ xs) = true) ->
    dedup seen (dedup seen xs ++ ys) = dedup seen xs.
Proof.
  induction xs as [|x xs IH]; intros seen ys H.
  - simpl. apply dedup_seen. intros y Hy. specialize (H y Hy).
    now rewrite app_nil_r in H.
  - simpl. destruct (existsb (String.eqb x) seen) eqn:E.
    + apply IH. intros y Hy. specialize (H y Hy).
      rewrite existsb_app in H. rewrite existsb_app.
      cbn [existsb] in H.
      destruct (String.eqb y x) eqn:Eyx; [|exact H].
      apply String.eqb_eq in Eyx. subst y. now rewrite E.
    + cbn [app dedup]. rewrite E. f_equal. apply IH. intros y Hy.
      specialize (H y Hy). rewrite existsb_app in H.
      rewrite existsb_app. cbn [existsb] in *.
      destruct (String.eqb y x); [reflexivity|]. exact H.
Qed.

(** [classList.add] twice is [classList.add] once. *)
Lemma classListAdd_idempotent (tok c : string) :
  isToken tok = true ->
  unwords
    (dedup [] (tokens (unwords (dedup [] (tokens c ++ [tok]))) ++ [tok]))
  = unwords (dedup [] (tokens c ++ [tok])).
Proof.
  intros Htok.
  assert (Hall : Forall (fun t => isToken t = true)
                   (dedup [] (tokens c ++ [tok]))).
  { apply dedup_Forall, Forall_app. split.
    - now apply tokensFrom_isToken.
    - constructor; [exact Htok | constructor]. }
  rewrite (tokens_unwords _ Hall). f_equal.
  apply dedup_absorb. intros y [<-|[]]. simpl.
  rewrite existsb_app. simpl. rewrite String.eqb_refl.
  now rewrite orb_true_r.
Qed.

(** X13: an accepted click on a page with the loading overlay makes the
    overlay visible and keeps its other classes: the tokens of its class
    attribute are afterwards [visible] and the tokens it had, and its
    text, markup and listeners are as they were. *)
Theorem click_shows_overlay (topic : string) (p : Page.t) (e : Element) :
  accepts topic = true ->
  elements p !! "loadingOverlay" = Some e ->
  exists e' : Element,
    elements (page_of (themeCardClick topic p)) !! "loadingOverlay" = Some e'
    /\ (forall t, In t (tokens (className e'))
                  <-> t = "visible" \/ In t (tokens (className e)))
    /\ textContent e' = textContent e
    /\ innerHTML e' = innerHTML e
    /\ clickListeners e' = clickListeners e.
Proof.
  intros Hacc He. rewrite themeCardClick_run, Hacc. simpl page_of.
  eexists. split.
  { simpl. rewrite lookup_alter_eq, He. reflexivity. }
  repeat split; try reflexivity; simpl className.
  - rewrite tokens_unwords.
    + rewrite In_dedup, in_app_iff. simpl. intros [[H|[<-|[]]] _]; tauto.
    + apply dedup_Forall, Forall_app. split.
      * now apply tokensFrom_isToken.
      * repeat constructor.
  - rewrite tokens_unwords.
    + rewrite In_dedup, in_app_iff. simpl. intros [->|H]; split; tauto.
    + apply dedup_Forall, Forall_app. split.
      * now apply tokensFrom_isToken.
      * repeat constructor.
Qed.

Lemma click_shows_overlay_witness :
  exists e' : Element,
    elements
      (page_of (themeCardClick "climate" (Fixture.page ["loadingOverlay"] None)))
    !! "loadingOverlay" = Some e'
    /\ textContent e' = EmptyString.
Proof.
  destruct (click_shows_overlay "climate"
              (Fixture.page ["loadingOverlay"] None) Fixture.blank)
    as (e' & He' & _ & Ht & _).
  - vm_compute; reflexivity.
  - vm_compute; reflexivity.
  - exists e'. split; [exact He' | exact Ht].
Defined.

(** X14: nothing debounces the click.  A second accepted click on the
    same card, before the navigation, leaves the overlay and the stored
    topic as the first click left them and queues a second navigation. *)
Theorem second_click_queues_second_navigation (topic : string)
    (p : Page.t) :
  accepts topic = true ->
  themeCardClick topic (page_of (themeCardClick topic p))
  = Returns tt
      (addTimer (AfterDelay (Navigate "generate.html") 1100)
         (page_of (themeCardClick topic p))).
Proof.
  intros Hacc. rewrite !themeCardClick_run, Hacc. simpl page_of.
  f_equal. unfold addTimer, withStorage, update; simpl. f_equal.
  - apply map_eq. intros j. rewrite !lookup_alter.
    destruct (decide ("loadingOverlay" = j)) as [<-|_]; [|reflexivity].
    destruct (elements p !! "loadingOverlay") as [e|]; [|reflexivity].
    simpl. f_equal. unfold withClass; simpl.
    now rewrite classListAdd_idempotent.
  - apply insert_insert_eq.
Qed.

Lemma second_click_queues_second_navigation_witness :
  timers
    (page_of
       (themeCardClick "energy"
          (page_of
             (themeCardClick "energy" (Fixture.page ["loadingOverlay"] None)))))
  = [AfterDelay (Navigate "generate.html") 1100;
     AfterDelay (Navigate "generate.html") 1100].
Proof.
  rewrite (second_click_queues_second_navigation "energy"
             (Fixture.page ["loadingOverlay"] None)).
  - vm_compute; reflexivity.
  - vm_compute; reflexivity.
Defined.

End ClassList.

(** ** The header clock *)

Section ClockText.
Import Js Page Dom Clock.

Lemma string_length_app (a b : string) :
  String.length (a +:+ b) = String.length a + String.length b.
Proof.
  induction a as [|c a IH]; [reflexivity|].
  rewrite append_cons. simpl. now rewrite IH.
Qed.

Lemma length_padded (w : nat) : forall n, String.length (padded w n) = w.
Proof.
  induction w as [|w IH]; intros n; [reflexivity|].
  cbn [padded]. rewrite string_length_app, IH. cbn [String.length]. lia.
Qed.

Lemma digit_not_T (n : nat) : Ascii.eqb (digit (n mod 10)) "T" = false.
Proof.
  assert (H : n mod 10 < 10) by (apply Nat.mod_upper_bound; lia).
  destruct (n mod 10) as [|[|[|[|[|[|[|[|[|[|d]]]]]]]]]];
    try reflexivity; lia.
Qed.

Lemma replace_cons_ne (pat c : ascii) (r s : string) :
  Ascii.eqb c pat = false ->
  replace pat r (String c s) = String c (replace pat r s).
Proof. intros H. cbn [replace]. now rewrite H. Qed.

(** The first [T] is not among the digits. *)
Lemma replace_padded (r : string) (w : nat) :
  forall n s,
    replace "T" r (padded w n +:+ s) = padded w n +:+ replace "T" r s.
Proof.
  induction w as [|w IH]; intros n s; [reflexivity|].
  cbn [padded]. rewrite !append_assoc, IH. f_equal.
  rewrite !append_cons.
  change (EmptyString +:+ ?x) with x.
  now rewrite replace_cons_ne by apply digit_not_T.
Qed.

Lemma replace_isoYear (r : string) (y : Z) (s : string) :
  replace "T" r (isoYear y +:+ s) = isoYear y +:+ replace "T" r s.
Proof.
  unfold isoYear. destruct (_ && _).
  - apply replace_padded.
  - destruct (y <? 0)%Z; rewrite !append_assoc, !append_cons;
      change (EmptyString +:+ ?x) with x;
      (rewrite replace_cons_ne by reflexivity);
      now rewrite replace_padded.
Qed.

Lemma substring_prefix (a b : string) :
  substring 0 (String.length a) (a +:+ b) = a.
Proof.
  induction a as [|c a IH].
  - change (EmptyString +:+ b) with b. now destruct b.
  - rewrite append_cons. cbn [String.length substring]. now rewrite IH.
Qed.

(** The ISO string with its [T] replaced. *)
Lemma replace_toISOString (now : Instant) :
  replace "T" " " (toISOString now)
  = isoYear (year now) +:+ "-" +:+ padded 2 (month now) +:+ "-"
    +:+ padded 2 (day now) +:+ " " +:+ padded 2 (hours now) +:+ ":"
    +:+ padded 2 (minutes now) +:+ ":" +:+ padded 2 (seconds now) +:+ "."
    +:+ padded 3 (milliseconds now) +:+ "Z".
Proof.
  unfold toISOString. rewrite replace_isoYear. f_equal.
  change ("-" +:+ ?s) with (String "-" s).
  rewrite replace_cons_ne by reflexivity.
  change (String "-" ?s) with ("-" +:+ s). f_equal.
  rewrite replace_padded. f_equal.
  change ("-" +:+ ?s) with (String "-" s).
  rewrite replace_cons_ne by reflexivity.
  change (String "-" ?s) with ("-" +:+ s). f_equal.
  rewrite replace_padded. reflexivity.
Qed.

(** X15: for a year from 0 to 9999 the header clock shows the UTC date
    and time to the second, as [YYYY-MM-DD HH:MM:SS UTC]: 23 characters,
    without the [T], the milliseconds and the [Z] of the ISO string. *)
Theorem clock_shows_utc_seconds (now : Instant) :
  (0 <= year now <= 9999)%Z ->
  clockText now
  = padded 4 (Z.to_nat (year now)) +:+ "-" +:+ padded 2 (month now) +:+ "-"
    +:+ padded 2 (day now) +:+ " " +:+ padded 2 (hours now) +:+ ":"
    +:+ padded 2 (minutes now) +:+ ":" +:+ padded 2 (seconds now) +:+ " UTC"
  /\ String.length (clockText now) = 23.
Proof.
  intros Hy.
  assert (Hiso : isoYear (year now) = padded 4 (Z.to_nat (year now))).
  { unfold isoYear.
    destruct (Z.leb_spec 0 (year now)); [|lia].
    destruct (Z.leb_spec (year now) 9999); [reflexivity | lia]. }
  assert (Htext : clockText now
    = (padded 4 (Z.to_nat (year now)) +:+ "-" +:+ padded 2 (month now)
       +:+ "-" +:+ padded 2 (day now) +:+ " " +:+ padded 2 (hours now)
       +:+ ":" +:+ padded 2 (minutes now) +:+ ":" +:+ padded 2 (seconds now))
      +:+ " UTC").
  { unfold clockText, slice. rewrite replace_toISOString, Hiso.
    set (pre := padded 4 _ +:+ "-" +:+ padded 2 (month now) +:+ "-"
                +:+ padded 2 (day now) +:+ " " +:+ padded 2 (hours now)
                +:+ ":" +:+ padded 2 (minutes now) +:+ ":"
                +:+ padded 2 (seconds now)).
    assert (Hlen : String.length pre = 19 - 0).
    { unfold pre. rewrite !string_length_app, !length_padded. reflexivity. }
    rewrite <- (substring_prefix pre
                  ("." +:+ padded 3 (milliseconds now) +:+ "Z")) at 1.
    rewrite Hlen. unfold pre. now rewrite !append_assoc. }
  split.
  - rewrite Htext. now rewrite !append_assoc.
  - rewrite Htext, !string_length_app, !length_padded. reflexivity.
Qed.

Lemma clock_shows_utc_seconds_witness :
  clockText (Clock.mk 2026 11 3 4 7 9 42) = "2026-11-03 04:07:09 UTC".
Proof.
  apply (clock_shows_utc_seconds (Clock.mk 2026 11 3 4 7 9 42)).
  simpl. lia.
Defined.

(** X16: for a year outside 0 to 9999 the ISO string has a sign and six
    digits of year, and the cut at 19 characters falls after the minutes:
    the header clock then shows [±YYYYYY-MM-DD HH:MM UTC] without the
    seconds. *)
Theorem clock_drops_seconds_of_long_years (now : Instant) :
  (year now < 0 \/ 9999 < year now)%Z ->
  clockText now
  = (if (year now <? 0)%Z then "-" else "+")
    +:+ padded 6 (Z.to_nat (Z.abs (year now))) +:+ "-"
    +:+ padded 2 (month now) +:+ "-" +:+ padded 2 (day now) +:+ " "
    +:+ padded 2 (hours now) +:+ ":" +:+ padded 2 (minutes now) +:+ " UTC".
Proof.
  intros Hy.
  assert (Hiso : isoYear (year now)
                 = (if (year now <? 0)%Z then "-" else "+")
                   +:+ padded 6 (Z.to_nat (Z.abs (year now)))).
  { unfold isoYear.
    destruct (Z.leb_spec 0 (year now)); [|reflexivity].
    destruct (Z.leb_spec (year now) 9999); [lia | reflexivity]. }
  unfold clockText, slice. rewrite replace_toISOString, Hiso.
  set (sign := if (year now <? 0)%Z then "-" else "+").
  set (pre := sign +:+ padded 6 (Z.to_nat (Z.abs (year now))) +:+ "-"
              +:+ padded 2 (month now) +:+ "-" +:+ padded 2 (day now)
              +:+ " " +:+ padded 2 (hours now) +:+ ":"
              +:+ padded 2 (minutes now)).
  assert (Hlen : String.length pre = 19 - 0).
  { unfold pre. rewrite !string_length_app, !length_padded.
    unfold sign. now destruct (year now <? 0)%Z. }
  transitivity (pre +:+ " UTC"); [|unfold pre; now rewrite !append_assoc].
  rewrite <- (substring_prefix pre
                (":" +:+ padded 2 (seconds now) +:+ "."
                 +:+ padded 3 (milliseconds now) +:+ "Z")) at 1.
  rewrite Hlen. unfold pre. now rewrite !append_assoc.
Qed.

Lemma clock_drops_seconds_of_long_years_witness :
  clockText (Clock.mk 10000 1 1 0 0 59 0) = "+010000-01-01 00:00 UTC".
Proof.
  apply (clock_drops_seconds_of_long_years (Clock.mk 10000 1 1 0 0 59 0)).
  right. simpl. lia.
Defined.

End ClockText.

(** ** The boot handler *)

Section Booting.
Import Js Page Dom Report Boot.

Lemma length_initHomepage (cards : list string) :
  length (Home.initHomepage cards) = 2 * length cards.
Proof.
  unfold Home.initHomepage.
  assert (H : forall (l : list string)
                (g : nat -> string -> list Home.Listener),
             (forall i x, length (g i x) = 2) ->
             length (concat (imap g l)) = 2 * length l).
  { induction l as [|x l IH]; intros g Hg; [reflexivity|].
    cbn [imap concat]. rewrite List.length_app, Hg, IH; [cbn [length]; lia|].
    intros i y. apply Hg. }
  destruct cards as [|c cards]; [reflexivity|].
  change (length (c :: cards) =? 0)%nat with false. cbv iota.
  now apply H.
Qed.

(** X17: on the report page an exception of the renderer leaves the boot
    handler: the header clock is then never started.  The handler ends
    with the uncaught TypeError on the page as the renderer left it, the
    header timestamp is as it was and no interval is registered. *)
Theorem renderer_failure_stops_clock (cards : list string)
    (now : Clock.Instant) (w : Window) :
  returned (initGeneratePage (document w)) = false ->
  onDOMContentLoaded (Some "generate") cards now w
  = Uncaught TypeError
      {| document := page_of (initGeneratePage (document w));
         registered := registered w |}
  /\ elements (document
                 (window_of (onDOMContentLoaded (Some "generate") cards now w)))
     !! "headerTimestamp"
     = elements (document w) !! "headerTimestamp".
Proof.
  intros Hfail.
  assert (Hrun : onDOMContentLoaded (Some "generate") cards now w
                 = Uncaught TypeError
                     {| document := page_of (initGeneratePage (document w));
                        registered := registered w |}).
  { unfold onDOMContentLoaded. simpl strictEq. cbv iota zeta. unfold run.
    destruct (initGeneratePage (document w)) as [[] q|[] q];
      [discriminate | reflexivity]. }
  split; [exact Hrun|]. rewrite Hrun. simpl.
  apply (initGeneratePage_frame (fun q => elements q !! "headerTimestamp"));
    try reflexivity.
  intros id g q Hin. unfold update; simpl. apply lookup_alter_ne.
  intros ->. apply list_elem_of_In in Hin. simpl in Hin.
  intuition discriminate.
Qed.

Lemma renderer_failure_stops_clock_witness :
  elements
    (document
       (window_of
          (onDOMContentLoaded (Some "generate") []
             (Clock.mk 2026 11 3 4 7 9 42)
             {| document :=
                  Fixture.page
                    ("headerTimestamp"
                     :: Fixture.reportIdsWithout "reportTitle") None;
                registered := [] |})))
  !! "headerTimestamp"
  = Some Fixture.blank.
Proof.
  apply (renderer_failure_stops_clock []
           (Clock.mk 2026 11 3 4 7 9 42)
           {| document :=
                Fixture.page
                  ("headerTimestamp"
                   :: Fixture.reportIdsWithout "reportTitle") None;
              registered := [] |}).
  vm_compute; reflexivity.
Defined.

(** X18: when the controller of the page returns (always on a page that
    is not the report page), the boot handler finishes.  It has run the
    renderer on the report page only and registered the listeners of the
    theme cards, two per card, on the home page only; the header
    timestamp, if it exists, shows the clock text, and one interval of
    1000 ms is registered exactly when it exists. *)
Theorem boot_starts_clock (dataPage : option string) (cards : list string)
    (now : Clock.Instant) (w : Window) :
  (strictEq dataPage "generate" = true ->
   returned (initGeneratePage (document w)) = true) ->
  onDOMContentLoaded dataPage cards now w
  = Finished
      {| document :=
           update "headerTimestamp"
             (withText (Some (Clock.clockText now)))
             (if strictEq dataPage "generate"
              then page_of (initGeneratePage (document w))
              else document w);
         registered :=
           ((registered w
             ++ (if strictEq dataPage "home"
                 then map CardListener (Home.initHomepage cards) else []))
            ++ (if present "headerTimestamp" (document w)
                then [TickInterval 1000] else []))%list |}
  /\ length (Home.initHomepage cards) = 2 * length cards.
Proof.
  intros Hret. split; [|apply length_initHomepage].
  unfold onDOMContentLoaded. cbv zeta.
  set (w1 := if strictEq dataPage "home"
             then register (map CardListener (Home.initHomepage cards)) w
             else w).
  assert (Hdoc : document w1 = document w)
    by (unfold w1; now destruct (strictEq dataPage "home")).
  assert (Hreg : registered w1
                 = (registered w
                    ++ (if strictEq dataPage "home"
                        then map CardListener (Home.initHomepage cards)
                        else []))%list).
  { unfold w1. destruct (strictEq dataPage "home"); simpl;
      [reflexivity | now rewrite app_nil_r]. }
  unfold run. rewrite Hdoc, Hreg.
  set (doc := if strictEq dataPage "generate"
              then page_of (initGeneratePage (document w))
              else document w).
  assert (Hctl : (if strictEq dataPage "generate" then initGeneratePage
                  else Page.ret tt) (document w) = Returns tt doc).
  { unfold doc. destruct (strictEq dataPage "generate"); [|reflexivity].
    specialize (Hret eq_refl).
    destruct (initGeneratePage (document w)) as [[] q|e q];
      [reflexivity | discriminate]. }
  rewrite Hctl. cbv beta iota. simpl document.
  assert (Hpres : present "headerTimestamp" doc
                  = present "headerTimestamp" (document w)).
  { unfold doc. destruct (strictEq dataPage "generate"); [|reflexivity].
    apply (initGeneratePage_frame (present "headerTimestamp"));
      try reflexivity.
    intros id g q _. apply present_update. }
  rewrite <- Hpres.
  destruct (present "headerTimestamp" doc) eqn:E.
  - rewrite (getElementById_present _ _ E). reflexivity.
  - rewrite (getElementById_absent _ _ E).
    rewrite update_absent by exact E. now rewrite app_nil_r.
Qed.

Lemma boot_starts_clock_witness :
  registered
    (window_of
       (onDOMContentLoaded (Some "home") ["climate"; "energy"]
          (Clock.mk 2026 11 3 4 7 9 42)
          {| document := Fixture.page ["headerTimestamp"] None;
             registered := [] |}))
  = [CardListener (Home.Click 0); CardListener (Home.Keydown 0);
     CardListener (Home.Click 1); CardListener (Home.Keydown 1);
     TickInterval 1000].
Proof.
  rewrite (proj1 (boot_starts_clock (Some "home") ["climate"; "energy"]
                    (Clock.mk 2026 11 3 4 7 9 42)
                    {| document := Fixture.page ["headerTimestamp"] None;
                       registered := [] |}
                    ltac:(discriminate))).
  vm_compute; reflexivity.
Defined.

End Booting.
